(** * llamabench: the benchmark execution engine of [real_benchmark.py]

    A shallow embedding of [RealBenchmarkEngine] (the single-request prober,
    the metrics aggregator) and of [run_real_benchmark], followed by the
    properties of the specification that concern them.

    Conventions of the embedding.
    - Python [int] is [Z]; [len] is [Z.of_nat (length _)].
    - A Python [float] is the rational it denotes ([Q]), compared with [Qeq]
      ([==]).  The arithmetic of the aggregator is modelled twice.  In the
      exact model ([percentile], [_aggregate_results]) no operation rounds
      and [round(x, n)] is rounding half to even of the exact value; it
      carries the properties of order, range and invariance.  In the binary64
      model ([percentile64], [_aggregate_results64]) every operation returns
      the IEEE 754 double nearest to the exact result, ties to even, as
      CPython computes it, and a division by zero raises; it carries the
      properties that say which value a field has.  The binary64 model has
      no infinity and no NaN: it describes the runs in which no operation
      overflows, which is the case whenever the measurements are finite
      doubles that are not negative and the token total is below [2^1024].
    - Python [str] is [string]; its characters are the code points below
      256.
    - An exception is a value of [exn]; code that may raise lives in the
      [result] monad, [try]/[except] is [catch].  Only subclasses of
      [Exception] are modelled; task cancellation and interpreter exit are
      outside the model.
    - The clock, the network and [json.loads] are the environment: their
      answers are inputs of the model (see [exchange]). *)

From Stdlib Require Import ZArith QArith Qround Qpower Lia Lqa.
From Stdlib Require Import List String Ascii Bool.
From Stdlib Require Import Sorted Permutation DecimalString.
Import ListNotations.

Set Warnings "-register-all".

Local Open Scope string_scope.
Local Open Scope Z_scope.

(* ================================================================== *)
(** * Python primitives *)
(* ================================================================== *)

(** Exceptions.  [TimeoutError] is [asyncio.TimeoutError]; every other
    subclass of [Exception] is [Exception msg] with [msg = str(e)].  For errors
    raised by the interpreter itself the message follows CPython's wording; no
    property below depends on the wording. *)
Inductive exn : Type :=
| TimeoutError
| Exception (msg : string).

Inductive result (A : Type) : Type :=
| Ok (a : A)
| Raise (e : exn).

Arguments Ok {A} a.
Arguments Raise {A} e.

Definition bind {A B : Type} (m : result A) (k : A -> result B) : result B :=
  match m with
  | Ok a => k a
  | Raise e => Raise e
  end.

(** [try: body except: handler] *)
Definition catch {A : Type} (body : result A) (handler : exn -> result A)
  : result A :=
  match body with
  | Ok a => Ok a
  | Raise e => handler e
  end.

Declare Scope py_scope.
Delimit Scope py_scope with py.
Notation "x <- m ;; k" := (bind m (fun x => k))
  (at level 61, m at next level, right associativity) : py_scope.
Notation "' pat <- m ;; k" := (bind m (fun x => match x with pat => k end))
  (at level 61, pat pattern, m at next level, right associativity) : py_scope.
Local Open Scope py_scope.

Fixpoint mapM {A B : Type} (f : A -> result B) (l : list A) : result (list B) :=
  match l with
  | [] => Ok []
  | a :: l' => b <- f a ;; bs <- mapM f l' ;; Ok (b :: bs)
  end.

(** [len(l)] *)
Definition len {A : Type} (l : list A) : Z := Z.of_nat (List.length l).

(** [l[i]] for an integer [i]: a negative index counts from the end, an index
    out of range raises [IndexError]. *)
Definition py_index {A : Type} (l : list A) (i : Z) : result A :=
  let j := if i <? 0 then i + len l else i in
  if (0 <=? j) && (j <? len l)
  then match nth_error l (Z.to_nat j) with
       | Some a => Ok a
       | None => Raise (Exception "list index out of range")
       end
  else Raise (Exception "list index out of range").

(** [a % b] on integers: the sign follows the divisor, as [Z.modulo];
    [ZeroDivisionError] when [b = 0]. *)
Definition py_mod (a b : Z) : result Z :=
  if b =? 0 then Raise (Exception "integer modulo by zero")
  else Ok (a mod b).

(** [a / b] on integers in the exact model: the quotient as a rational.  The
    aggregator divides under guards that exclude [b = 0]; the division that
    rounds, and raises on [b = 0], is [py_truediv] below. *)
Definition true_div (a b : Z) : Q := inject_Z a / inject_Z b.

(** [int(x)]: truncation toward zero. *)
Definition py_int (x : Q) : Z := Z.quot (Qnum x) (Zpos (Qden x)).

(** Rounding to the nearest integer, ties to the even one. *)
Definition round_half_even (x : Q) : Z :=
  let f := Qfloor x in
  match ((x - inject_Z f) ?= (1 # 2))%Q with
  | Lt => f
  | Gt => f + 1
  | Eq => if Z.even f then f else f + 1
  end.

(** [round(x, ndigits)] for [ndigits >= 0]. *)
Definition py_round (x : Q) (ndigits : nat) : Q :=
  let scale := inject_Z (10 ^ Z.of_nat ndigits) in
  (inject_Z (round_half_even (x * scale)) / scale)%Q.

(** [list.sort()] on numbers: a stable ascending sort. *)
Fixpoint insert (x : Q) (l : list Q) : list Q :=
  match l with
  | [] => [x]
  | y :: l' => if Qle_bool x y then x :: l else y :: insert x l'
  end.

Definition sort (l : list Q) : list Q := fold_right insert [] l.

(** [sum(...)] over integers. *)
Definition sum (l : list Z) : Z := fold_left Z.add l 0.

(** [str(n)] for an integer. *)
Definition str_of_int (n : Z) : string := NilZero.string_of_int (Z.to_int n).

(* ================================================================== *)
(** * Binary floating point *)
(* ================================================================== *)

(** CPython's [float] is the binary64 format of IEEE 754: 53 significant
    bits, the last bit of weight [2^(-1074)] at least.  A finite double is
    represented by the rational it denotes, and rounding is to the nearest
    double, ties to the even significand. *)

(** [x * 2^e] *)
Definition scale2 (x : Q) (e : Z) : Q := (x * 2 ^ e)%Q.

(** For [x > 0], the exponent [g] with [2^g <= x < 2^(g+1)]: the difference
    of the bit lengths of numerator and denominator, or one less. *)
Definition Qlog2 (x : Q) : Z :=
  let g := Z.log2 (Qnum x) - Z.log2 (Zpos (Qden x)) in
  if Qle_bool (2 ^ g) x then g else g - 1.

(** The double nearest to [x > 0]: [x] is rounded to a multiple of [2^e],
    where [e] is the weight of the last of 53 significant bits, or -1074 in
    the subnormal range. *)
Definition nearest (x : Q) : Q :=
  let e := Z.max (Qlog2 x - 52) (-1074) in
  scale2 (inject_Z (round_half_even (scale2 x (- e)))) e.

(** The double nearest to [x]. *)
Definition binary64 (x : Q) : Q :=
  match (x ?= 0)%Q with
  | Eq => 0%Q
  | Gt => nearest x
  | Lt => (- nearest (- x))%Q
  end.

(** [a / b] on integers: the double nearest to the quotient;
    [ZeroDivisionError] when [b = 0]. *)
Definition py_truediv (a b : Z) : result Q :=
  if b =? 0 then Raise (Exception "division by zero")
  else Ok (binary64 (inject_Z a / inject_Z b)).

(** [x + y], [x - y] and [x * y] on floats; an integer operand is converted
    first, which is exact for the integers met here. *)
Definition float_add (x y : Q) : Q := binary64 (x + y).

Definition float_sub (x y : Q) : Q := binary64 (x - y).

Definition float_mul (x y : Q) : Q := binary64 (x * y).

(** [round(x, ndigits)] on a float, for [ndigits >= 0]: the exact value of
    [x] is rounded to [ndigits] decimals, half to even, and the decimal is
    converted back to the nearest double. *)
Definition py_round64 (x : Q) (ndigits : nat) : Q :=
  binary64 (py_round x ndigits).

(* ================================================================== *)
(** * Samples and run results *)
(* ================================================================== *)

(** The dictionary returned by [measure_single_request]. *)
Record Sample : Type := mkSample {
  ttft : option Q;
  total_time : Q;
  tokens : Z;
  success : bool;
  error : option string
}.

(** The dictionary returned by [_aggregate_results]. *)
Record RunResult : Type := mkRunResult {
  successful_requests : Z;
  failed_requests : Z;
  ttft_p50 : Q;
  ttft_p95 : Q;
  ttft_p99 : Q;
  tokens_per_sec : Q;
  total_tokens : Z;
  error_rate : Q
}.

(* ================================================================== *)
(** * Metrics aggregator: [_aggregate_results] *)
(* ================================================================== *)

(** The local function [percentile(data, p)]. *)
Definition percentile (data : list Q) (p : Z) : result Q :=
  match data with
  | [] => Ok 0%Q
  | _ :: _ =>
      let k := true_div ((len data - 1) * p) 100 in
      let f := py_int k in
      let c := if f <? len data - 1 then f + 1 else f in
      lo <- py_index data f ;;
      hi <- py_index data c ;;
      lo' <- py_index data f ;;
      Ok (lo + (k - inject_Z f) * (hi - lo'))%Q
  end.

(** The values of [ttfts] as numbers.  A [None] among them makes
    [ttfts.sort()] (two or more values) or the arithmetic of [percentile]
    (a single value) raise [TypeError].  The text of the message depends on
    the operation that meets the [None]; the model keeps one text for all
    of them. *)
Definition as_float (t : option Q) : result Q :=
  match t with
  | Some q => Ok q
  | None =>
      Raise (Exception "unsupported operand type(s): 'NoneType' and 'float'")
  end.

Definition _aggregate_results (results : list Sample) (duration : Z)
  : result RunResult :=
  let successful := filter (fun r => success r) results in
  let failed := filter (fun r => negb (success r)) results in
  match successful with
  | [] =>
      Ok {| successful_requests := 0;
            failed_requests := len failed;
            ttft_p50 := 0;
            ttft_p95 := 0;
            ttft_p99 := 0;
            tokens_per_sec := 0;
            total_tokens := 0;
            error_rate := 1 |}
  | _ :: _ =>
      ttfts <- mapM as_float (map ttft successful) ;;
      let ttfts := sort ttfts in
      ttft_p50 <- percentile ttfts 50 ;;
      ttft_p95 <- percentile ttfts 95 ;;
      ttft_p99 <- percentile ttfts 99 ;;
      let total_tokens := sum (map tokens successful) in
      let tokens_per_sec :=
        if duration >? 0 then true_div total_tokens duration else 0%Q in
      Ok {| successful_requests := len successful;
            failed_requests := len failed;
            ttft_p50 := py_round ttft_p50 3;
            ttft_p95 := py_round ttft_p95 3;
            ttft_p99 := py_round ttft_p99 3;
            tokens_per_sec := py_round tokens_per_sec 1;
            total_tokens := total_tokens;
            error_rate :=
              match results with
              | [] => 0%Q
              | _ :: _ => true_div (len failed) (len results)
              end |}
  end.

(** ** The aggregator in binary64 arithmetic *)

(** The local function [percentile(data, p)]: [(len(data) - 1) * p] is an
    integer product, its quotient by 100 a float, and the interpolation is
    computed in floats from the inside out. *)
Definition percentile64 (data : list Q) (p : Z) : result Q :=
  match data with
  | [] => Ok 0%Q
  | _ :: _ =>
      k <- py_truediv ((len data - 1) * p) 100 ;;
      let f := py_int k in
      let c := if f <? len data - 1 then f + 1 else f in
      lo <- py_index data f ;;
      hi <- py_index data c ;;
      lo' <- py_index data f ;;
      Ok (float_add lo
            (float_mul (float_sub k (inject_Z f)) (float_sub hi lo')))
  end.

Definition _aggregate_results64 (results : list Sample) (duration : Z)
  : result RunResult :=
  let successful := filter (fun r => success r) results in
  let failed := filter (fun r => negb (success r)) results in
  match successful with
  | [] =>
      Ok {| successful_requests := 0;
            failed_requests := len failed;
            ttft_p50 := 0;
            ttft_p95 := 0;
            ttft_p99 := 0;
            tokens_per_sec := 0;
            total_tokens := 0;
            error_rate := 1 |}
  | _ :: _ =>
      ttfts <- mapM as_float (map ttft successful) ;;
      let ttfts := sort ttfts in
      ttft_p50 <- percentile64 ttfts 50 ;;
      ttft_p95 <- percentile64 ttfts 95 ;;
      ttft_p99 <- percentile64 ttfts 99 ;;
      let total_tokens := sum (map tokens successful) in
      tokens_per_sec <-
        (if duration >? 0 then py_truediv total_tokens duration
         else Ok 0%Q) ;;
      error_rate <-
        match results with
        | [] => Ok 0%Q
        | _ :: _ => py_truediv (len failed) (len results)
        end ;;
      Ok {| successful_requests := len successful;
            failed_requests := len failed;
            ttft_p50 := py_round64 ttft_p50 3;
            ttft_p95 := py_round64 ttft_p95 3;
            ttft_p99 := py_round64 ttft_p99 3;
            tokens_per_sec := py_round64 tokens_per_sec 1;
            total_tokens := total_tokens;
            error_rate := error_rate |}
  end.

(* ================================================================== *)
(** * JSON values and the operations the prober applies to them *)
(* ================================================================== *)

(** What [json.loads] returns: [None], [bool], [int], [float], [str],
    [list] or [dict].  A [dict] is its list of bindings; the binding of a key
    is the first one listed. *)
Inductive json : Type :=
| JNull
| JBool (b : bool)
| JInt (n : Z)
| JFloat (q : Q)
| JStr (s : string)
| JArr (xs : list json)
| JObj (kvs : list (string * json)).

Definition type_name (v : json) : string :=
  match v with
  | JNull => "NoneType"
  | JBool _ => "bool"
  | JInt _ => "int"
  | JFloat _ => "float"
  | JStr _ => "str"
  | JArr _ => "list"
  | JObj _ => "dict"
  end.

Fixpoint lookup {A : Type} (key : string) (kvs : list (string * A)) : option A :=
  match kvs with
  | [] => None
  | (k, v) :: kvs' => if String.eqb k key then Some v else lookup key kvs'
  end.

(** [dict.get(key, default)] on a dictionary of the program text. *)
Definition dict_get {A : Type} (kvs : list (string * A)) (key : string)
  (default : A) : A :=
  match lookup key kvs with
  | Some v => v
  | None => default
  end.

Definition has_key {A : Type} (key : string) (kvs : list (string * A)) : bool :=
  match lookup key kvs with
  | Some _ => true
  | None => false
  end.

Fixpoint is_substring (p s : string) : bool :=
  match s with
  | EmptyString => prefix p s
  | String _ s' => prefix p s || is_substring p s'
  end.

Definition str_eq (key : string) (v : json) : bool :=
  match v with
  | JStr s => String.eqb s key
  | _ => false
  end.

(** [key in data] for a string [key]: key membership on a [dict], element
    membership on a [list], substring test on a [str]; [TypeError] on the
    other values. *)
Definition py_contains (key : string) (data : json) : result bool :=
  match data with
  | JObj kvs => Ok (has_key key kvs)
  | JArr xs => Ok (existsb (str_eq key) xs)
  | JStr s => Ok (is_substring key s)
  | _ =>
      Raise (Exception
        ("argument of type '" ++ type_name data ++ "' is not iterable"))
  end.

(** [data.get(key, default)]: only a [dict] has the method. *)
Definition py_get (data : json) (key : string) (default : json) : result json :=
  match data with
  | JObj kvs => Ok (dict_get kvs key default)
  | _ =>
      Raise (Exception
        ("'" ++ type_name data ++ "' object has no attribute 'get'"))
  end.

Inductive subscript : Type :=
| KStr (s : string)
| KInt (i : Z).

(** [data[k]] *)
Definition py_getitem (data : json) (k : subscript) : result json :=
  match data, k with
  | JObj kvs, KStr s =>
      match lookup s kvs with
      | Some v => Ok v
      | None => Raise (Exception ("'" ++ s ++ "'"))
      end
  | JObj _, KInt i => Raise (Exception (str_of_int i))
  | JArr xs, KInt i => py_index xs i
  | JArr _, KStr _ =>
      Raise (Exception "list indices must be integers or slices, not str")
  | JStr s, KInt i =>
      match py_index (list_ascii_of_string s) i with
      | Ok c => Ok (JStr (String c EmptyString))
      | Raise _ => Raise (Exception "string index out of range")
      end
  | JStr _, KStr _ =>
      Raise (Exception "string indices must be integers, not 'str'")
  | _, _ =>
      Raise (Exception
        ("'" ++ type_name data ++ "' object is not subscriptable"))
  end.

(** The white space of [str.split()] among the characters below 256: tab to
    carriage return, the four separators, space, next line and no-break
    space. *)
Definition is_space (c : ascii) : bool :=
  let n := Z.of_nat (nat_of_ascii c) in
  ((9 <=? n) && (n <=? 13)) || ((28 <=? n) && (n <=? 32))
  || (n =? 133) || (n =? 160).

(** [s.split()]: the maximal runs of characters that are not white space;
    [word] is the run being read. *)
Fixpoint split_from (word : string) (s : string) : list string :=
  match s with
  | EmptyString =>
      match word with
      | EmptyString => []
      | _ => [word]
      end
  | String c s' =>
      if is_space c
      then match word with
           | EmptyString => split_from EmptyString s'
           | _ => word :: split_from EmptyString s'
           end
      else split_from (word ++ String c EmptyString) s'
  end.

Definition split (s : string) : list string := split_from EmptyString s.

(** [content.split()]: only a [str] has the method. *)
Definition py_split (content : json) : result (list string) :=
  match content with
  | JStr s => Ok (split s)
  | _ =>
      Raise (Exception
        ("'" ++ type_name content ++ "' object has no attribute 'split'"))
  end.

(* ================================================================== *)
(** * The environment of one request *)
(* ================================================================== *)

(** One item yielded by [async for line in response.content], seen through
    [if line] and [json.loads(line.decode('utf-8'))]:
    - [Blank]: empty bytes, falsy;
    - [Garbage]: non-empty bytes that do not decode or do not parse;
    - [Json v]: non-empty bytes that parse to [v]. *)
Inductive line : Type :=
| Blank
| Garbage
| Json (v : json).

Definition truthy (l : line) : bool :=
  match l with
  | Blank => false
  | _ => true
  end.

Definition json_loads (l : line) : result json :=
  match l with
  | Json v => Ok v
  | _ => Raise (Exception "Expecting value: line 1 column 1 (char 0)")
  end.

(** An HTTP response as the prober observes it.  [content] lists the lines of
    the body with the reading of [time.perf_counter()] at the arrival of each;
    [content_error] is the exception that ends the iteration, if any;
    [json_body] is the outcome of [await response.json()] and [json_time] the
    clock reading once it has returned. *)
Record response : Type := mkResponse {
  status : Z;
  content : list (Q * line);
  content_error : option exn;
  json_body : result json;
  json_time : Q
}.

(** One request as the environment plays it: the clock at entry, the answer
    of [session.post(url, json=payload, timeout=30)], and the clock reading
    taken on the way out (every path of the prober reads the clock exactly
    once more before it returns). *)
Record exchange : Type := mkExchange {
  start_time : Q;
  post : string -> json -> result response;
  end_time : Q
}.

(* ================================================================== *)
(** * Single-request prober: [measure_single_request] *)
(* ================================================================== *)

Record RealBenchmarkEngine : Type := mkEngine {
  engine : string;
  base_url : string;
  model_name : string
}.

Definition _build_request (self : RealBenchmarkEngine) (prompt : string)
  : result (string * json) :=
  if String.eqb (engine self) "llama.cpp" then
    Ok (base_url self ++ "/completion",
        JObj [("prompt", JStr prompt);
              ("n_predict", JInt 512);
              ("temperature", JFloat (7 # 10));
              ("stream", JBool true)])
  else if String.eqb (engine self) "ollama" then
    Ok (base_url self ++ "/api/generate",
        JObj [("model", JStr (model_name self));
              ("prompt", JStr prompt);
              ("stream", JBool true)])
  else if String.eqb (engine self) "vllm" then
    Ok (base_url self ++ "/v1/completions",
        JObj [("model", JStr (model_name self));
              ("prompt", JStr prompt);
              ("max_tokens", JInt 512);
              ("temperature", JFloat (7 # 10))])
  else Raise (Exception ("Unknown engine: " ++ engine self)).

(** [async for line in response.content: body], threading the variables the
    body assigns. *)
Fixpoint async_for {S : Type} (body : S -> Q * line -> result S)
  (lines : list (Q * line)) (ending : option exn) (st : S) : result S :=
  match lines with
  | [] =>
      match ending with
      | None => Ok st
      | Some e => Raise e
      end
  | l :: rest => st' <- body st l ;; async_for body rest ending st'
  end.

(** Body of the llama.cpp loop; the state is [(ttft, tokens)]. *)
Definition llama_cpp_body (start : Q) (st : option Q * Z) (item : Q * line)
  : result (option Q * Z) :=
  let '(ttft', tokens') := st in
  let '(now, l) := item in
  let ttft' :=
    match ttft' with
    | None => Some (now - start)%Q
    | Some _ => ttft'
    end in
  if truthy l then
    catch
      (data <- json_loads l ;;
       found <- py_contains "content" data ;;
       if found then Ok (ttft', tokens' + 1) else Ok (ttft', tokens'))
      (fun _ => Ok (ttft', tokens'))
  else Ok (ttft', tokens').

(** Body of the ollama loop. *)
Definition ollama_body (start : Q) (st : option Q * Z) (item : Q * line)
  : result (option Q * Z) :=
  let '(ttft', tokens') := st in
  let '(now, l) := item in
  let ttft' :=
    match ttft' with
    | None => Some (now - start)%Q
    | Some _ => ttft'
    end in
  if truthy l then
    catch
      (data <- json_loads l ;;
       found <- py_contains "response" data ;;
       if found then
         text <- py_get data "response" (JStr "") ;;
         words <- py_split text ;;
         Ok (ttft', tokens' + len words)
       else Ok (ttft', tokens'))
      (fun _ => Ok (ttft', tokens'))
  else Ok (ttft', tokens').

(** The [vllm] branch: one buffered JSON reply. *)
Definition vllm_body (start : Q) (r : response) (st : option Q * Z)
  : result (option Q * Z) :=
  let '(_, tokens') := st in
  data <- json_body r ;;
  let ttft' := Some (json_time r - start)%Q in
  found <- py_contains "choices" data ;;
  if found then
    choices <- py_getitem data (KStr "choices") ;;
    first <- py_getitem choices (KInt 0) ;;
    text <- py_get first "text" (JStr "") ;;
    words <- py_split text ;;
    Ok (ttft', len words)
  else Ok (ttft', tokens').

(** The [if]/[elif] chain on [self.engine] that reads the body of a 200
    response. *)
Definition read_response (self : RealBenchmarkEngine) (start : Q)
  (r : response) (st : option Q * Z) : result (option Q * Z) :=
  if String.eqb (engine self) "llama.cpp" then
    async_for (llama_cpp_body start) (content r) (content_error r) st
  else if String.eqb (engine self) "ollama" then
    async_for (ollama_body start) (content r) (content_error r) st
  else if String.eqb (engine self) "vllm" then
    vllm_body start r st
  else Ok st.

Definition measure_single_request (self : RealBenchmarkEngine)
  (prompt : string) (x : exchange) : result Sample :=
  let start := start_time x in
  catch
    ('(url, payload) <- _build_request self prompt ;;
     r <- post x url payload ;;
     if negb (status r =? 200) then
       Ok {| ttft := None;
             total_time := end_time x - start;
             tokens := 0;
             success := false;
             error := Some ("HTTP " ++ str_of_int (status r)) |}
     else
       '(ttft', tokens') <- read_response self start r (None, 0) ;;
       let total_time' := (end_time x - start)%Q in
       let ttft' :=
         match ttft' with
         | None => total_time'
         | Some t => t
         end in
       Ok {| ttft := Some ttft';
             total_time := total_time';
             tokens := if tokens' >? 0 then tokens' else 50;
             success := true;
             error := None |})
    (fun e =>
       match e with
       | TimeoutError =>
           Ok {| ttft := None;
                 total_time := end_time x - start;
                 tokens := 0;
                 success := false;
                 error := Some "Timeout" |}
       | Exception msg =>
           Ok {| ttft := None;
                 total_time := end_time x - start;
                 tokens := 0;
                 success := false;
                 error := Some msg |}
       end).

(* ================================================================== *)
(** * Load generator and [run_real_benchmark] *)
(* ================================================================== *)

(** The calls that leave the benchmark engine, in the order they are made. *)
Inductive call : Type :=
| SessionGet (url : string)
| Gather (workers : Z).

(** One iteration of a worker's loop that passed the deadline test: the value
    of the worker's [prompt_idx] and the request as the environment plays it. *)
Record attempt : Type := mkAttempt {
  prompt_idx : Z;
  wire : exchange
}.

(** The environment of a run: the answer of [session.get(url, timeout=5)]
    (a status, or an exception) and the iterations that the workers execute
    before the deadline, in the order in which their samples are appended to
    [results].  How many iterations there are is decided by the wall clock and
    the scheduler, which are not modelled. *)
Record world : Type := mkWorld {
  session_get : string -> result Z;
  iterations : list attempt
}.

Definition health_endpoints : list (string * string) :=
  [("llama.cpp", "/health"); ("ollama", "/api/tags"); ("vllm", "/health")].

Definition health_check (self : RealBenchmarkEngine) (w : world)
  : list call * bool :=
  let endpoint := dict_get health_endpoints (engine self) "/health" in
  let url := base_url self ++ endpoint in
  ([SessionGet url],
   match session_get w url with
   | Ok code => code =? 200
   | Raise _ => false
   end).

(** Body of the worker loop. *)
Definition worker_body (self : RealBenchmarkEngine) (prompts : list string)
  (a : attempt) : result Sample :=
  i <- py_mod (prompt_idx a) (len prompts) ;;
  prompt <- py_index prompts i ;;
  measure_single_request self prompt (wire a).

Definition run_concurrent_benchmark (self : RealBenchmarkEngine)
  (prompts : list string) (concurrency duration : Z) (w : world)
  : list call * result RunResult :=
  ([Gather concurrency],
   results <- mapM (worker_body self prompts) (iterations w) ;;
   _aggregate_results results duration).

(** [return None] is [Ok None]. *)
Definition run_real_benchmark (engine base_url model_name : string)
  (prompts : list string) (concurrency duration : Z) (w : world)
  : list call * result (option RunResult) :=
  let bench := mkEngine engine base_url model_name in
  let '(log, healthy) := health_check bench w in
  if negb healthy then (log, Ok None)
  else
    let '(log', results) :=
      run_concurrent_benchmark bench prompts concurrency duration w in
    ((log ++ log')%list, r <- results ;; Ok (Some r)).

(* ================================================================== *)
(** * Notions of the specification *)
(* ================================================================== *)

(** Percentile by linear interpolation between order statistics, in the
    words of the specification: [k = (n-1) * p/100], [f = floor k],
    [c = min (f+1) (n-1)], result [v[f] + (k-f) * (v[c] - v[f])]. *)
Definition percentile_spec (v : list Q) (p : Z) : Q :=
  let n := len v in
  let k := (inject_Z (n - 1) * (inject_Z p / 100))%Q in
  let f := Qfloor k in
  let c := Z.min (f + 1) (n - 1) in
  let at_ i := nth (Z.to_nat i) v 0%Q in
  (at_ f + (k - inject_Z f) * (at_ c - at_ f))%Q.

(** The same formula evaluated in binary64 arithmetic: [k] is the double
    nearest to the quotient of the integer [(n-1) * p] by 100, and the
    difference, the product and the sum of the interpolation are each rounded
    to the nearest double. *)
Definition percentile64_spec (v : list Q) (p : Z) : Q :=
  let n := len v in
  let k := binary64 (inject_Z ((n - 1) * p) / inject_Z 100) in
  let f := Qfloor k in
  let c := Z.min (f + 1) (n - 1) in
  let at_ i := nth (Z.to_nat i) v 0%Q in
  float_add (at_ f)
    (float_mul (float_sub k (inject_Z f)) (float_sub (at_ c) (at_ f))).

(** A sample is timed when it is a failure or carries a [ttft]; every sample
    that the prober produces is. *)
Definition timed (s : Sample) : bool :=
  match success s, ttft s with
  | true, None => false
  | _, _ => true
  end.

(** The [ttft] values of the successful samples, in input order. *)
Definition successful_ttfts (results : list Sample) : list Q :=
  flat_map (fun s =>
              match success s, ttft s with
              | true, Some t => [t]
              | _, _ => []
              end) results.

(** The sum of [token_count] over the successful samples. *)
Definition successful_tokens (results : list Sample) : Z :=
  fold_right (fun s acc => if success s then tokens s + acc else acc) 0 results.

(** The sample of a failed request. *)
Definition failure (x : exchange) (msg : string) : Sample :=
  {| ttft := None;
     total_time := end_time x - start_time x;
     tokens := 0;
     success := false;
     error := Some msg |}.

Definition streaming (self : RealBenchmarkEngine) : bool :=
  String.eqb (engine self) "llama.cpp" || String.eqb (engine self) "ollama".

(** The loop body that [read_response] runs for a streaming engine. *)
Definition loop_body (self : RealBenchmarkEngine) (start : Q)
  : option Q * Z -> Q * line -> result (option Q * Z) :=
  if String.eqb (engine self) "llama.cpp"
  then llama_cpp_body start else ollama_body start.

(** The number of token events that the loop body of the engine counts on
    one line. *)
Definition line_events (self : RealBenchmarkEngine) (l : line) : Z :=
  match loop_body self 0 (None, 0) (0%Q, l) with
  | Ok (_, n) => n
  | Raise _ => 0
  end.

(** The token events of a whole stream. *)
Definition stream_events (self : RealBenchmarkEngine)
  (lines : list (Q * line)) : Z :=
  fold_right (fun item acc => line_events self (snd item) + acc) 0 lines.

(** The token count of the prober's variable [tokens] once the body of a 200
    response has been read. *)
Definition parsed_tokens (self : RealBenchmarkEngine) (start : Q)
  (r : response) : Z :=
  match read_response self start r (None, 0) with
  | Ok (_, n) => n
  | Raise _ => 0
  end.

(** Arrival of the first line that yields at least one token event. *)
Fixpoint first_content_arrival (self : RealBenchmarkEngine)
  (lines : list (Q * line)) : option Q :=
  match lines with
  | [] => None
  | (now, l) :: rest =>
      if 0 <? line_events self l then Some now
      else first_content_arrival self rest
  end.

(** The field that carries generated text in a line of the engine's stream. *)
Definition content_key (self : RealBenchmarkEngine) : string :=
  if String.eqb (engine self) "llama.cpp" then "content" else "response".

(** The line is a JSON object that has the field [key]. *)
Definition has_field (key : string) (l : line) : bool :=
  match l with
  | Json (JObj kvs) => has_key key kvs
  | _ => false
  end.

Definition is_json (l : line) : bool :=
  match l with
  | Json _ => true
  | _ => false
  end.

(** The line passes the membership test [key in data] of the loop body. *)
Definition passes_key_test (key : string) (l : line) : bool :=
  match l with
  | Json data =>
      match py_contains key data with
      | Ok found => found
      | Raise _ => false
      end
  | _ => false
  end.

(** The request fails with exception [e]: raised while the request is built,
    by [session.post], or while the body of a 200 response is read. *)
Definition request_raises (self : RealBenchmarkEngine) (prompt : string)
  (x : exchange) (e : exn) : Prop :=
  _build_request self prompt = Raise e \/
  exists url payload,
    _build_request self prompt = Ok (url, payload) /\
    (post x url payload = Raise e \/
     exists r, post x url payload = Ok r /\ status r = 200 /\
               read_response self (start_time x) r (None, 0) = Raise e).

(** The URL of the health check. *)
Definition health_url (engine base_url : string) : string :=
  base_url ++ dict_get health_endpoints engine "/health".

(* ================================================================== *)
(** * Example data *)
(* ================================================================== *)

(** The list of the specification's percentile check. *)
Definition fifths : list Q := [1 # 10; 2 # 10; 3 # 10; 4 # 10; 5 # 10].

(** The same list as Python reads it: the doubles [0.1], ..., [0.5]. *)
Definition fifths64 : list Q := map binary64 fifths.

(** Three measurements whose exact 95th and 99th percentiles, 1.6875 and
    1.8375, lie halfway between two decimals of three digits. *)
Definition tied : list Q := [0; 0; 15 # 8]%Q.

Definition succeeded (t : Q) (n : Z) : Sample :=
  {| ttft := Some t; total_time := t + 1; tokens := n;
     success := true; error := None |}.

(** One successful sample of 10 tokens for each [ttft] of the list. *)
Definition measured (ttfts : list Q) : list Sample :=
  map (fun t => succeeded t 10) ttfts.

Definition timed_out : Sample :=
  {| ttft := None; total_time := 30; tokens := 0;
     success := false; error := Some "Timeout" |}.

(** Five successes, unsorted, and one failure. *)
Definition mixed_run : list Sample :=
  [succeeded (5 # 10) 7; succeeded (1 # 10) 12; timed_out;
   succeeded (4 # 10) 50; succeeded (2 # 10) 9; succeeded (3 # 10) 3].

Definition llama : RealBenchmarkEngine :=
  mkEngine "llama.cpp" "http://localhost:8080" "llama-3.1-8b".

Definition ollama : RealBenchmarkEngine :=
  mkEngine "ollama" "http://localhost:11434" "llama3.1".

(** A streamed 200 response that closes normally. *)
Definition streamed (lines : list (Q * line)) : response :=
  {| status := 200; content := lines; content_error := None;
     json_body := Raise (Exception "Attempt to decode JSON with unexpected mimetype");
     json_time := 0 |}.

(** A request that starts at time 0, is answered by [r] and ends at time 4. *)
Definition answered (r : response) : exchange :=
  {| start_time := 0; post := fun _ _ => Ok r; end_time := 4 |}.

(** A request whose [post] raises [e] at time 30. *)
Definition refused (e : exn) : exchange :=
  {| start_time := 0; post := fun _ _ => Raise e; end_time := 30 |}.

(** A line that is not JSON arrives at time 1, the first content at time 2. *)
Definition late_content : response :=
  streamed [(1%Q, Garbage); (2%Q, Json (JObj [("content", JStr "Hi")]))].

(** A line that is not JSON, a content line, and a line that holds the JSON
    string ["content"]. *)
Definition stray_string : response :=
  streamed [(1%Q, Garbage);
            (2%Q, Json (JObj [("content", JStr "Hi")]));
            (3%Q, Json (JStr "content"))].

(** Lines from which no token is counted. *)
Definition no_tokens : response :=
  streamed [(1%Q, Garbage); (2%Q, Json (JObj [("stop", JBool true)]))].

(** One content line, then the read times out. *)
Definition interrupted : response :=
  {| status := 200;
     content := [(1%Q, Json (JObj [("content", JStr "Hi")]))];
     content_error := Some TimeoutError;
     json_body := Raise TimeoutError; json_time := 0 |}.

Definition server_error : response :=
  {| status := 500; content := []; content_error := None;
     json_body := Ok JNull; json_time := 1 |}.

Definition up (requests : list attempt) : world :=
  {| session_get := fun _ => Ok 200; iterations := requests |}.

Definition down : world :=
  {| session_get := fun _ => Raise (Exception "Cannot connect to host");
     iterations := [] |}.

(* ================================================================== *)
(** * The worker loop of [run_concurrent_benchmark] *)
(* ================================================================== *)

(** [a < b] on numbers. *)
Definition py_lt (a b : Q) : bool := negb (Qle_bool b a).

(** What a worker meets at the top of its loop: the reading of [time.time()]
    and, for the case that the deadline test lets the worker through, the
    request as the environment plays it. *)
Record tick : Type := mkTick {
  clock : Q;
  played : exchange
}.

(** The test [time.time() - start_time < duration]. *)
Definition before_deadline (start : Q) (duration : Z) (t : tick) : bool :=
  py_lt (clock t - start) (inject_Z duration).

(** The coroutine [worker], from the value [idx] of its [prompt_idx]: the
    samples it appends to [results], in order.  [None] when the trace ends
    while the worker is still in its loop. *)
Fixpoint worker (self : RealBenchmarkEngine) (prompts : list string)
  (start : Q) (duration : Z) (idx : Z) (trace : list tick)
  : option (result (list Sample)) :=
  match trace with
  | [] => None
  | t :: rest =>
      if before_deadline start duration t then
        match worker_body self prompts (mkAttempt idx (played t)) with
        | Raise e => Some (Raise e)
        | Ok s =>
            match worker self prompts start duration (idx + 1) rest with
            | Some (Ok samples) => Some (Ok (s :: samples))
            | other => other
            end
        end
      else Some (Ok [])
  end.

(** [asyncio.gather] over the workers: the samples of all workers, listed
    worker by worker, or the exception of the first worker that raised.  The
    source appends the samples in the order in which the requests complete,
    which is a rearrangement of this list. *)
Fixpoint gather (runs : list (option (result (list Sample))))
  : option (result (list Sample)) :=
  match runs with
  | [] => Some (Ok [])
  | None :: _ => None
  | Some (Raise e) :: _ => Some (Raise e)
  | Some (Ok samples) :: rest =>
      match gather rest with
      | Some (Ok more) => Some (Ok (samples ++ more)%list)
      | other => other
      end
  end.

(** [run_concurrent_benchmark] with the loop of each worker played against
    its own trace: worker [i] of [range(concurrency)] meets [traces i], and
    [start] is the reading of [time.time()] before the workers are created. *)
Definition run_concurrent_benchmark_traced (self : RealBenchmarkEngine)
  (prompts : list string) (concurrency duration : Z) (start : Q)
  (traces : nat -> list tick) : option (result RunResult) :=
  let workers :=
    map (fun i => worker self prompts start duration 0 (traces i))
        (seq 0 (Z.to_nat concurrency)) in
  match gather workers with
  | None => None
  | Some (Raise e) => Some (Raise e)
  | Some (Ok results) => Some (_aggregate_results results duration)
  end.

(** The ticks of a trace up to the first one that fails the deadline test. *)
Fixpoint passing (start : Q) (duration : Z) (trace : list tick) : list tick :=
  match trace with
  | [] => []
  | t :: rest =>
      if before_deadline start duration t
      then t :: passing start duration rest else []
  end.

(** The iterations of a worker that go through, numbered from [idx]. *)
Fixpoint numbered (idx : Z) (ticks : list tick) : list attempt :=
  match ticks with
  | [] => []
  | t :: rest => mkAttempt idx (played t) :: numbered (idx + 1) rest
  end.

(** The clock of the trace passes the deadline at some tick. *)
Definition expires (start : Q) (duration : Z) (trace : list tick) : bool :=
  existsb (fun t => negb (before_deadline start duration t)) trace.

(** The run result of a run without any sample. *)
Definition no_sample_result : RunResult :=
  {| successful_requests := 0; failed_requests := 0;
     ttft_p50 := 0; ttft_p95 := 0; ttft_p99 := 0;
     tokens_per_sec := 0; total_tokens := 0; error_rate := 1 |}.

(** A trace of three ticks at times 1, 2 and 11: a request that succeeds, a
    request that times out, and a reading past a deadline of 10 seconds. *)
Definition three_ticks : list tick :=
  [mkTick 1 {| start_time := 1;
               post := fun _ _ =>
                 Ok (streamed [(2%Q, Json (JObj [("content", JStr "Hi")]))]);
               end_time := 2 |};
   mkTick 2 {| start_time := 2;
               post := fun _ _ => Raise TimeoutError;
               end_time := 10 |};
   mkTick 11 {| start_time := 11;
                post := fun _ _ => Raise TimeoutError;
                end_time := 12 |}].

(* ================================================================== *)
(** * Further notions: comparing samples and run results *)
(* ================================================================== *)

(** Two run results that agree: the integer fields are equal and the numeric
    fields are equal as numbers. *)
Definition same_result (r r' : RunResult) : Prop :=
  successful_requests r = successful_requests r' /\
  failed_requests r = failed_requests r' /\
  total_tokens r = total_tokens r' /\
  (ttft_p50 r == ttft_p50 r')%Q /\
  (ttft_p95 r == ttft_p95 r')%Q /\
  (ttft_p99 r == ttft_p99 r')%Q /\
  (tokens_per_sec r == tokens_per_sec r')%Q /\
  (error_rate r == error_rate r')%Q.

(** Two samples that the aggregator cannot tell apart: the same outcome and,
    for a success, the same [ttft] and token count.  [total_time] and [error]
    are free, as are [ttft] and [tokens] of a failure. *)
Definition alike (s s' : Sample) : Prop :=
  success s = success s' /\
  (success s = true -> ttft s = ttft s' /\ tokens s = tokens s').

(** The clock readings of a request are in order: nothing is read before the
    start or after the end. *)
Definition in_order (x : exchange) (r : response) : Prop :=
  (start_time x <= end_time x)%Q /\
  Forall (fun item => (start_time x <= fst item /\ fst item <= end_time x)%Q)
         (content r) /\
  (start_time x <= json_time r /\ json_time r <= end_time x)%Q.

(** The engine kinds that [_build_request] knows. *)
Definition known (self : RealBenchmarkEngine) : bool :=
  String.eqb (engine self) "llama.cpp" || String.eqb (engine self) "ollama"
  || String.eqb (engine self) "vllm".

(** The words of the [response] field of an ollama line: the field must be
    a string of a JSON object. *)
Definition response_words (l : line) : Z :=
  match l with
  | Json (JObj kvs) =>
      match lookup "response" kvs with
      | Some (JStr text) => len (split text)
      | _ => 0
      end
  | _ => 0
  end.

(** The message recorded for an exception by the handlers of the prober. *)
Definition message (e : exn) : string :=
  match e with
  | TimeoutError => "Timeout"
  | Exception msg => msg
  end.

(** The token count reported for [n] parsed token events. *)
Definition reported (n : Z) : Z := if n >? 0 then n else 50.

(** The sample of a successful request whose [ttft] is [t] and whose body
    yielded [n] token events. *)
Definition completed (x : exchange) (t : Q) (n : Z) : Sample :=
  {| ttft := Some t;
     total_time := end_time x - start_time x;
     tokens := reported n;
     success := true;
     error := None |}.

(** The [ttft] of a streamed body that closes normally: the arrival of its
    first line, or the total time when it has none. *)
Definition first_line_ttft (x : exchange) (lines : list (Q * line)) : Q :=
  match lines with
  | [] => (end_time x - start_time x)%Q
  | (now, _) :: _ => (now - start_time x)%Q
  end.

(** The lines of a llama.cpp stream that pass the test ['content' in data]. *)
Definition content_lines (lines : list (Q * line)) : list (Q * line) :=
  filter (fun item => passes_key_test "content" (snd item)) lines.

(** The words of all [response] fields of an ollama stream. *)
Definition response_word_total (lines : list (Q * line)) : Z :=
  fold_right (fun item acc => response_words (snd item) + acc) 0 lines.

(** A vllm reply: the engine answers 200 with the JSON document [data]. *)
Definition vllm_reply (data : json) (returned : Q) : response :=
  {| status := 200; content := []; content_error := None;
     json_body := Ok data; json_time := returned |}.

Definition vllm : RealBenchmarkEngine :=
  mkEngine "vllm" "http://localhost:8000" "llama-3.1-8b".

(* ================================================================== *)
(** * Facts about the Python primitives *)
(* ================================================================== *)

Lemma len_nonneg {A : Type} (l : list A) : 0 <= len l.
Proof. unfold len. lia. Qed.

Lemma len_cons {A : Type} (a : A) (l : list A) : len (a :: l) = len l + 1.
Proof. unfold len. simpl List.length. lia. Qed.

Lemma len_filter_split {A : Type} (f : A -> bool) (l : list A) :
  len (filter f l) + len (filter (fun a => negb (f a)) l) = len l.
Proof.
  induction l as [|a l IH]; [reflexivity|].
  cbn [filter]. destruct (f a); cbn [negb]; rewrite !len_cons; lia.
Qed.

Lemma py_index_nth {A : Type} (l : list A) (i : Z) (d : A) :
  0 <= i < len l -> py_index l i = Ok (nth (Z.to_nat i) l d).
Proof.
  intros [H0 H1]. unfold py_index.
  destruct (Z.ltb_spec i 0) as [Hneg|_]; [lia|].
  destruct (Z.leb_spec 0 i) as [_|Hneg]; [|lia].
  destruct (Z.ltb_spec i (len l)) as [_|Hge]; [|lia].
  simpl. unfold len in H1.
  destruct (nth_error l (Z.to_nat i)) as [a|] eqn:E.
  - now rewrite (nth_error_nth l (Z.to_nat i) d E).
  - apply nth_error_None in E. lia.
Qed.

Lemma py_int_floor (x : Q) : (0 <= x)%Q -> py_int x = Qfloor x.
Proof.
  destruct x as [n d]. unfold Qle, py_int. simpl. intros H.
  apply Z.quot_div_nonneg; lia.
Qed.

Lemma true_div_nonneg (a b : Z) : 0 <= a -> 0 < b -> (0 <= true_div a b)%Q.
Proof.
  intros Ha Hb. unfold true_div.
  apply Qle_shift_div_l.
  - change 0%Q with (inject_Z 0). rewrite <- Zlt_Qlt. exact Hb.
  - rewrite Qmult_0_l. change 0%Q with (inject_Z 0). rewrite <- Zle_Qle. exact Ha.
Qed.

Lemma true_div_le_1 (a b : Z) : a <= b -> 0 < b -> (true_div a b <= 1)%Q.
Proof.
  intros Hab Hb. unfold true_div.
  apply Qle_shift_div_r.
  - change 0%Q with (inject_Z 0). rewrite <- Zlt_Qlt. exact Hb.
  - rewrite Qmult_1_l. rewrite <- Zle_Qle. exact Hab.
Qed.

Lemma true_div_mono (a b c : Z) :
  a <= b -> 0 < c -> (true_div a c <= true_div b c)%Q.
Proof.
  intros Hab Hc. unfold true_div, Qdiv.
  apply Qmult_le_compat_r.
  - rewrite <- Zle_Qle. exact Hab.
  - apply Qinv_le_0_compat. change 0%Q with (inject_Z 0).
    rewrite <- Zle_Qle. lia.
Qed.

(** [floor (a / 100)] as an integer quotient. *)
Lemma floor_true_div (a b : Z) : 0 < b -> Qfloor (true_div a b) = a / b.
Proof.
  intros Hb. unfold true_div.
  destruct b as [|b|b]; try lia.
  unfold Qdiv, Qinv, inject_Z, Qmult, Qfloor. simpl.
  rewrite Z.mul_1_r. reflexivity.
Qed.

(** ** Rounding *)

Lemma round_half_even_bounds (x : Q) :
  Qfloor x <= round_half_even x <= Qfloor x + 1.
Proof.
  unfold round_half_even.
  destruct (x - inject_Z (Qfloor x) ?= 1 # 2)%Q; try lia.
  destruct (Z.even (Qfloor x)); lia.
Qed.

Lemma round_half_even_mono (x y : Q) :
  (x <= y)%Q -> round_half_even x <= round_half_even y.
Proof.
  intros Hxy.
  pose proof (Qfloor_resp_le x y Hxy) as Hf.
  destruct (Z.eq_dec (Qfloor x) (Qfloor y)) as [E|NE].
  - unfold round_half_even. rewrite E.
    destruct (Qcompare_spec (x - inject_Z (Qfloor y)) (1 # 2)) as [Hx|Hx|Hx];
      destruct (Qcompare_spec (y - inject_Z (Qfloor y)) (1 # 2)) as [Hy|Hy|Hy];
      try (destruct (Z.even (Qfloor y))); try lia; exfalso; lra.
  - pose proof (round_half_even_bounds x). pose proof (round_half_even_bounds y).
    lia.
Qed.

Lemma scale_pos (n : nat) : (0 < inject_Z (10 ^ Z.of_nat n))%Q.
Proof.
  change 0%Q with (inject_Z 0). rewrite <- Zlt_Qlt.
  apply Z.pow_pos_nonneg; lia.
Qed.

Lemma py_round_mono (x y : Q) (n : nat) :
  (x <= y)%Q -> (py_round x n <= py_round y n)%Q.
Proof.
  intros Hxy. unfold py_round, Qdiv.
  pose proof (scale_pos n) as Hs.
  apply Qmult_le_compat_r.
  - rewrite <- Zle_Qle. apply round_half_even_mono.
    apply Qmult_le_compat_r; [exact Hxy | apply Qlt_le_weak, Hs].
  - apply Qinv_le_0_compat, Qlt_le_weak, Hs.
Qed.

Lemma round_half_even_comp (x y : Q) :
  (x == y)%Q -> round_half_even x = round_half_even y.
Proof.
  intros E. apply Z.le_antisymm; apply round_half_even_mono; rewrite E; apply Qle_refl.
Qed.

Lemma py_round_comp (x y : Q) (n : nat) :
  (x == y)%Q -> (py_round x n == py_round y n)%Q.
Proof.
  intros E. unfold py_round.
  set (scale := inject_Z (10 ^ Z.of_nat n)).
  rewrite (round_half_even_comp (x * scale) (y * scale)); [reflexivity|].
  now rewrite E.
Qed.

Lemma py_round_zero (n : nat) : (py_round 0 n == 0)%Q.
Proof.
  unfold py_round. rewrite (round_half_even_comp _ 0%Q) by apply Qmult_0_l.
  unfold Qdiv. apply Qmult_0_l.
Qed.

(** ** Binary floating point *)

Lemma pow2_pos (e : Z) : (0 < 2 ^ e)%Q.
Proof. apply Qpower_0_lt. reflexivity. Qed.

Lemma scale2_le (x y : Q) (e : Z) :
  (x <= y)%Q -> (scale2 x e <= scale2 y e)%Q.
Proof.
  intros H. unfold scale2.
  apply Qmult_le_compat_r; [exact H | apply Qlt_le_weak, pow2_pos].
Qed.

Lemma scale2_back (x : Q) (e : Z) : (scale2 (scale2 x (- e)) e == x)%Q.
Proof.
  unfold scale2. rewrite <- Qmult_assoc, <- Qpower_plus by discriminate.
  rewrite Z.add_opp_diag_l. apply Qmult_1_r.
Qed.

Lemma scale2_int (z e : Z) :
  0 <= e -> (scale2 (inject_Z z) e == inject_Z (z * 2 ^ e))%Q.
Proof.
  intros He. unfold scale2.
  rewrite inject_Z_mult, (Zpower_Qpower 2 e He). reflexivity.
Qed.

Lemma round_half_even_int (z : Z) : round_half_even (inject_Z z) = z.
Proof.
  unfold round_half_even. rewrite Qfloor_Z.
  destruct (Qcompare_spec (inject_Z z - inject_Z z) (1 # 2)) as [H|H|H];
    try reflexivity; exfalso; lra.
Qed.

Lemma round_half_even_near (y : Q) :
  (y - (1 # 2) <= inject_Z (round_half_even y) /\
   inject_Z (round_half_even y) <= y + (1 # 2))%Q.
Proof.
  pose proof (Qfloor_le y) as Hlo. pose proof (Qlt_floor y) as Hhi.
  rewrite inject_Z_plus in Hhi. change (inject_Z 1) with 1%Q in Hhi.
  unfold round_half_even.
  destruct (Qcompare_spec (y - inject_Z (Qfloor y)) (1 # 2)) as [H|H|H].
  - destruct (Z.even (Qfloor y));
      rewrite ?inject_Z_plus; change (inject_Z 1) with 1%Q; split; lra.
  - split; lra.
  - rewrite inject_Z_plus. change (inject_Z 1) with 1%Q. split; lra.
Qed.

(** [Qlog2 x] is not above the binary logarithm of a positive [x]. *)
Lemma Qlog2_le (x : Q) : (0 < x)%Q -> (2 ^ Qlog2 x <= x)%Q.
Proof.
  intros Hx. unfold Qlog2.
  set (g := Z.log2 (Qnum x) - Z.log2 (Zpos (Qden x))).
  destruct (Qle_bool (2 ^ g) x) eqn:E; [now apply Qle_bool_iff|].
  destruct x as [n d]. cbn [Qnum Qden] in g.
  assert (Hn : 0 < n) by (unfold Qlt in Hx; simpl in Hx; lia).
  destruct (Z.log2_spec n Hn) as [Hn1 _].
  destruct (Z.log2_spec (Zpos d) ltac:(lia)) as [_ Hd2].
  pose proof (Z.log2_nonneg n). pose proof (Z.log2_nonneg (Zpos d)).
  replace (g - 1) with (Z.log2 n - Z.succ (Z.log2 (Zpos d))) by (subst g; lia).
  rewrite Qpower_minus by discriminate.
  apply Qle_shift_div_r; [apply pow2_pos|].
  rewrite <- !(Zpower_Qpower 2) by lia.
  unfold Qle, Qmult, inject_Z. cbn [Qnum Qden].
  rewrite Z.mul_1_r, Pos.mul_1_r. nia.
Qed.

(** [Qlog2 x] is the integer part of the binary logarithm of a positive [x]. *)
Lemma Qlog2_lt (x : Q) : (0 < x)%Q -> (x < 2 ^ (Qlog2 x + 1))%Q.
Proof.
  intros Hx. unfold Qlog2.
  set (g := Z.log2 (Qnum x) - Z.log2 (Zpos (Qden x))).
  destruct (Qle_bool (2 ^ g) x) eqn:E.
  - destruct x as [n d]. cbn [Qnum Qden] in g.
    assert (Hn : 0 < n) by (unfold Qlt in Hx; simpl in Hx; lia).
    destruct (Z.log2_spec n Hn) as [_ Hn2].
    destruct (Z.log2_spec (Zpos d) ltac:(lia)) as [Hd1 _].
    pose proof (Z.log2_nonneg n). pose proof (Z.log2_nonneg (Zpos d)).
    replace (g + 1) with (Z.succ (Z.log2 n) - Z.log2 (Zpos d)) by (subst g; lia).
    rewrite Qpower_minus by discriminate.
    apply Qlt_shift_div_l; [apply pow2_pos|].
    rewrite <- !(Zpower_Qpower 2) by lia.
    unfold Qlt, Qmult, inject_Z. cbn [Qnum Qden].
    rewrite Z.mul_1_r, Pos.mul_1_r. nia.
  - replace (g - 1 + 1) with g by lia.
    apply Qnot_le_lt. intros H. apply Qle_bool_iff in H. congruence.
Qed.

Lemma nearest_nonneg (x : Q) : (0 <= x)%Q -> (0 <= nearest x)%Q.
Proof.
  intros Hx. unfold nearest.
  set (e := Z.max (Qlog2 x - 52) (-1074)).
  unfold scale2 at 1. apply Qmult_le_0_compat; [|apply Qlt_le_weak, pow2_pos].
  change 0%Q with (inject_Z 0). rewrite <- Zle_Qle.
  rewrite <- (round_half_even_int 0). apply round_half_even_mono.
  unfold scale2. apply Qmult_le_0_compat; [exact Hx | apply Qlt_le_weak, pow2_pos].
Qed.

(** Rounding does not cross an integer below [2^53]: such an integer is a
    multiple of the weight of the last bit of every smaller double. *)
Lemma nearest_le_int (x : Q) (N : Z) :
  (0 < x)%Q -> (x <= inject_Z N)%Q -> N < 2 ^ 53 ->
  (nearest x <= inject_Z N)%Q.
Proof.
  intros Hx HN Hb. unfold nearest.
  set (e := Z.max (Qlog2 x - 52) (-1074)).
  assert (He : e <= 0).
  { assert (Qlog2 x < 53); [|subst e; lia].
    apply (Qpower_lt_compat_l_inv 2); [|reflexivity].
    apply Qle_lt_trans with x; [now apply Qlog2_le|].
    apply Qle_lt_trans with (inject_Z N); [exact HN|].
    rewrite <- (Zpower_Qpower 2) by lia. now rewrite <- Zlt_Qlt. }
  rewrite <- (scale2_back (inject_Z N) e). apply scale2_le.
  rewrite (scale2_int N (- e)) by lia. rewrite <- Zle_Qle.
  rewrite <- (round_half_even_int (N * 2 ^ (- e))).
  apply round_half_even_mono.
  rewrite <- (scale2_int N (- e)) by lia. now apply scale2_le.
Qed.

(** [nearest x] is a double and a nearest one: its significand [m] has at
    most 53 bits (exactly 53 outside the subnormal range, or the next power
    of two), the weight [2^e] of its last bit is at least [2^(-1074)], and it
    lies within half of that weight from [x]. *)
Lemma nearest_spec (x : Q) :
  (0 < x)%Q ->
  let e := Z.max (Qlog2 x - 52) (-1074) in
  let m := round_half_even (scale2 x (- e)) in
  (nearest x == scale2 (inject_Z m) e)%Q /\
  -1074 <= e /\ 0 <= m <= 2 ^ 53 /\ (-1074 < e -> 2 ^ 52 <= m) /\
  (scale2 (inject_Z m - (1 # 2)) e <= x /\ x <= scale2 (inject_Z m + (1 # 2)) e)%Q.
Proof.
  intros Hx e m.
  pose proof (Qlog2_le x Hx) as Hlo. pose proof (Qlog2_lt x Hx) as Hhi.
  split; [reflexivity|]. split; [subst e; lia|].
  assert (Hy1 : (2 ^ (Qlog2 x + - e) <= scale2 x (- e))%Q).
  { rewrite Qpower_plus by discriminate. now apply (scale2_le _ x). }
  assert (Hy2 : (scale2 x (- e) < 2 ^ (Qlog2 x + 1 + - e))%Q).
  { rewrite Qpower_plus by discriminate. unfold scale2.
    apply Qmult_lt_compat_r; [apply pow2_pos | exact Hhi]. }
  split; [split|split].
  - subst m. rewrite <- (round_half_even_int 0). apply round_half_even_mono.
    unfold scale2. apply Qmult_le_0_compat;
      [now apply Qlt_le_weak | apply Qlt_le_weak, pow2_pos].
  - subst m. rewrite <- (round_half_even_int (2 ^ 53)).
    apply round_half_even_mono. apply Qlt_le_weak.
    apply Qlt_le_trans with (2 ^ (Qlog2 x + 1 + - e))%Q; [exact Hy2|].
    rewrite (Zpower_Qpower 2 53) by lia.
    apply Qpower_le_compat_l; [subst e; lia | discriminate].
  - intros He. subst m. rewrite <- (round_half_even_int (2 ^ 52)).
    apply round_half_even_mono.
    apply Qle_trans with (2 ^ (Qlog2 x + - e))%Q; [|exact Hy1].
    rewrite (Zpower_Qpower 2 52) by lia.
    apply Qpower_le_compat_l; [subst e; lia | discriminate].
  - pose proof (round_half_even_near (scale2 x (- e))) as [Hn1 Hn2].
    fold m in Hn1, Hn2.
    pose proof (scale2_back x e) as Hb.
    split.
    + apply Qle_trans with (scale2 (scale2 x (- e)) e);
        [apply scale2_le; lra | rewrite Hb; apply Qle_refl].
    + apply Qle_trans with (scale2 (scale2 x (- e)) e);
        [rewrite Hb; apply Qle_refl | apply scale2_le; lra].
Qed.

Lemma binary64_zero (x : Q) : (x == 0)%Q -> binary64 x = 0%Q.
Proof.
  intros H. unfold binary64. apply Qeq_alt in H. now rewrite H.
Qed.

Lemma binary64_nonneg (x : Q) : (0 <= x)%Q -> (0 <= binary64 x)%Q.
Proof.
  intros Hx. unfold binary64.
  destruct (Qcompare_spec x 0) as [H|H|H].
  - apply Qle_refl.
  - exfalso. lra.
  - now apply nearest_nonneg.
Qed.

Lemma binary64_le_int (x : Q) (N : Z) :
  (0 <= x)%Q -> (x <= inject_Z N)%Q -> N < 2 ^ 53 ->
  (binary64 x <= inject_Z N)%Q.
Proof.
  intros Hx HN Hb. unfold binary64.
  destruct (Qcompare_spec x 0) as [H|H|H].
  - rewrite H in HN. exact HN.
  - exfalso. lra.
  - now apply nearest_le_int.
Qed.

(** Outside the subnormal range rounding moves a positive number up by at
    most the fraction [2^(-53)] of its value. *)
Lemma binary64_upper (x : Q) :
  (2 ^ (-1022) <= x)%Q -> (binary64 x <= x * (1 + 2 ^ (-53)))%Q.
Proof.
  intros Hn.
  assert (Hx : (0 < x)%Q)
    by (apply Qlt_le_trans with (2 ^ (-1022))%Q; [apply pow2_pos | exact Hn]).
  unfold binary64. destruct (Qcompare_spec x 0) as [H|H|_]; try (exfalso; lra).
  destruct (nearest_spec x Hx) as (Hval & _ & _ & _ & Hlo & _).
  pose proof (Qlog2_le x Hx) as Hg. pose proof (Qlog2_lt x Hx) as Hg'.
  assert (Hl : -1022 <= Qlog2 x).
  { assert (-1022 < Qlog2 x + 1); [|lia].
    apply (Qpower_lt_compat_l_inv 2); [|reflexivity].
    now apply Qle_lt_trans with x. }
  rewrite Hval. clear Hval.
  replace (Z.max (Qlog2 x - 52) (-1074)) with (Qlog2 x + -52) in * by lia.
  set (m := inject_Z (round_half_even (scale2 x (- (Qlog2 x + -52))))) in *.
  unfold scale2 in *.
  assert (He : (2 ^ (Qlog2 x + -52) <= x * 2 ^ (-52))%Q).
  { rewrite Qpower_plus by discriminate.
    apply Qmult_le_compat_r; [exact Hg | apply Qlt_le_weak, pow2_pos]. }
  set (t := (2 ^ (Qlog2 x + -52))%Q) in *.
  assert (E : ((m - (1 # 2)) * t == m * t - (1 # 2) * t)%Q) by ring.
  rewrite E in Hlo.
  change (2 ^ (-52))%Q with (1 # 4503599627370496)%Q in He.
  change (2 ^ (-53))%Q with (1 # 9007199254740992)%Q.
  set (mt := (m * t)%Q) in *. lra.
Qed.

Lemma py_truediv_value (a b : Z) :
  b <> 0 -> py_truediv a b = Ok (binary64 (inject_Z a / inject_Z b)).
Proof.
  intros Hb. unfold py_truediv.
  destruct (Z.eqb_spec b 0); [contradiction | reflexivity].
Qed.

Lemma py_round64_zero (n : nat) : py_round64 0 n = 0%Q.
Proof. unfold py_round64. apply binary64_zero, py_round_zero. Qed.

(** The model at work: the doubles [0.1 + 0.2] and [0.35]. *)
Example float_add_inexact :
  (float_add (binary64 (1 # 10)) (binary64 (2 # 10))
   == 5404319552844596 # 18014398509481984)%Q /\
  (binary64 (3 # 10) < float_add (binary64 (1 # 10)) (binary64 (2 # 10)))%Q.
Proof. split; vm_compute; reflexivity. Qed.

Example division_rounds_down :
  py_truediv 7 20 = Ok (binary64 (35 # 100)) /\
  (binary64 (35 # 100) < 35 # 100)%Q /\
  (py_round64 (binary64 (35 # 100)) 1 == binary64 (3 # 10))%Q.
Proof. split; [|split]; vm_compute; reflexivity. Qed.

(** ** Sorting *)

Lemma insert_perm (x : Q) (l : list Q) : Permutation (x :: l) (insert x l).
Proof.
  induction l as [|y l IH]; simpl; [apply Permutation_refl|].
  destruct (Qle_bool x y); [apply Permutation_refl|].
  eapply perm_trans; [apply perm_swap|]. now apply perm_skip.
Qed.

Lemma sort_perm (l : list Q) : Permutation l (sort l).
Proof.
  induction l as [|x l IH]; simpl; [constructor|].
  eapply perm_trans; [apply perm_skip, IH | apply insert_perm].
Qed.

Lemma sort_length (l : list Q) : List.length (sort l) = List.length l.
Proof. symmetry. apply Permutation_length, sort_perm. Qed.

Lemma insert_sorted (x : Q) (l : list Q) :
  StronglySorted Qle l -> StronglySorted Qle (insert x l).
Proof.
  induction 1 as [|y l Hs IH Hall]; simpl.
  - repeat constructor.
  - destruct (Qle_bool x y) eqn:E.
    + apply Qle_bool_iff in E. constructor; [now constructor|].
      constructor; [exact E|].
      eapply Forall_impl; [|exact Hall]. intros z Hz. now apply Qle_trans with y.
    + assert (Hyx : (y <= x)%Q).
      { destruct (Qlt_le_dec y x) as [Hlt|Hle]; [now apply Qlt_le_weak|].
        apply Qle_bool_iff in Hle. congruence. }
      constructor; [exact IH|].
      eapply Permutation_Forall; [apply insert_perm|].
      now constructor.
Qed.

Lemma sort_sorted (l : list Q) : StronglySorted Qle (sort l).
Proof.
  induction l as [|x l IH]; simpl; [constructor | now apply insert_sorted].
Qed.

Lemma sorted_nth (v : list Q) (i j : nat) :
  StronglySorted Qle v -> (i <= j)%nat -> (j < List.length v)%nat ->
  (nth i v 0 <= nth j v 0)%Q.
Proof.
  intros Hs. revert i j.
  induction Hs as [|x v Hs IH Hall]; intros i j Hij Hj; simpl in Hj; [lia|].
  destruct j as [|j].
  - assert (i = 0%nat) by lia. subst. apply Qle_refl.
  - destruct i as [|i]; simpl.
    + rewrite Forall_forall in Hall. apply Hall, nth_In. lia.
    + apply IH; lia.
Qed.

(* ================================================================== *)
(** * Facts about the aggregator *)
(* ================================================================== *)

(** The value of [percentile] on a non-empty list, with the index computed
    as an integer quotient. *)
Lemma percentile_value (v : list Q) (p : Z) :
  v <> [] -> 0 <= p <= 100 ->
  let n := len v in
  let k := true_div ((n - 1) * p) 100 in
  let f := ((n - 1) * p) / 100 in
  let c := Z.min (f + 1) (n - 1) in
  0 <= f <= n - 1 /\
  percentile v p =
    Ok (nth (Z.to_nat f) v 0 +
        (k - inject_Z f) * (nth (Z.to_nat c) v 0 - nth (Z.to_nat f) v 0))%Q.
Proof.
  intros Hv Hp n k f c.
  assert (Hn : 1 <= n).
  { subst n. destruct v; [contradiction|]. rewrite len_cons.
    pose proof (len_nonneg v). lia. }
  assert (Hf : 0 <= f <= n - 1).
  { subst f. split.
    - apply Z.div_pos; nia.
    - apply Z.div_le_upper_bound; nia. }
  split; [exact Hf|].
  assert (Hint : py_int k = f).
  { subst k f. rewrite py_int_floor.
    - apply floor_true_div. lia.
    - apply true_div_nonneg; nia. }
  unfold percentile. destruct v as [|x v']; [contradiction|].
  fold n. fold k. rewrite Hint.
  assert (Hc : (if f <? n - 1 then f + 1 else f) = c).
  { subst c. destruct (Z.ltb_spec f (n - 1)); lia. }
  rewrite Hc.
  rewrite (py_index_nth (x :: v') f 0%Q) by (fold n; lia).
  rewrite (py_index_nth (x :: v') c 0%Q) by (fold n; subst c; lia).
  reflexivity.
Qed.

(** [percentile] agrees with the formula of the specification. *)
Lemma percentile_refines_spec (v : list Q) (p : Z) :
  v <> [] -> 0 <= p <= 100 ->
  exists x, percentile v p = Ok x /\ (x == percentile_spec v p)%Q.
Proof.
  intros Hv Hp.
  destruct (percentile_value v p Hv Hp) as [Hf Hval].
  eexists. split; [exact Hval|].
  unfold percentile_spec.
  set (n := len v) in *.
  assert (Hk : (inject_Z (n - 1) * (inject_Z p / 100)
                == true_div ((n - 1) * p) 100)%Q).
  { unfold true_div. rewrite inject_Z_mult. change (inject_Z 100) with 100%Q.
    field. }
  assert (Hfl : Qfloor (inject_Z (n - 1) * (inject_Z p / 100))
                = (n - 1) * p / 100).
  { rewrite (Qfloor_comp _ _ Hk). apply floor_true_div. lia. }
  rewrite Hfl, Hk. reflexivity.
Qed.

(** On an ascending list [percentile] is monotone in [p]. *)
Lemma percentile_monotone (v : list Q) (p q : Z) (x y : Q) :
  StronglySorted Qle v -> v <> [] -> 0 <= p -> p <= q -> q <= 100 ->
  percentile v p = Ok x -> percentile v q = Ok y -> (x <= y)%Q.
Proof.
  intros Hs Hv Hp Hpq Hq Hx Hy.
  destruct (percentile_value v p Hv) as [Hfp Hvp]; [lia|].
  destruct (percentile_value v q Hv) as [Hfq Hvq]; [lia|].
  rewrite Hvp in Hx. rewrite Hvq in Hy.
  injection Hx as <-. injection Hy as <-.
  set (n := len v) in *.
  set (a := (n - 1) * p) in *. set (b := (n - 1) * q) in *.
  assert (Hab : a <= b) by (subst a b; nia).
  set (fa := a / 100) in *. set (fb := b / 100) in *.
  assert (Hfab : fa <= fb) by (apply Z.div_le_mono; lia).
  assert (Hka : (inject_Z fa <= true_div a 100 /\
                 true_div a 100 < inject_Z (fa + 1))%Q).
  { subst fa. rewrite <- (floor_true_div a 100) by lia.
    split; [apply Qfloor_le | apply Qlt_floor]. }
  assert (Hkb : (inject_Z fb <= true_div b 100 /\
                 true_div b 100 < inject_Z (fb + 1))%Q).
  { subst fb. rewrite <- (floor_true_div b 100) by lia.
    split; [apply Qfloor_le | apply Qlt_floor]. }
  rewrite inject_Z_plus in Hka, Hkb. change (inject_Z 1) with 1%Q in Hka, Hkb.
  assert (Hkab : (true_div a 100 <= true_div b 100)%Q)
    by (apply true_div_mono; lia).
  assert (Hnth : forall i j, 0 <= i -> i <= j -> j <= n - 1 ->
            (nth (Z.to_nat i) v 0 <= nth (Z.to_nat j) v 0)%Q).
  { intros i j Hi Hij Hj. apply sorted_nth; [exact Hs | lia |].
    subst n. unfold len in Hj. lia. }
  set (ca := Z.min (fa + 1) (n - 1)) in *.
  set (cb := Z.min (fb + 1) (n - 1)) in *.
  pose proof (Hnth fa ca ltac:(lia) ltac:(subst ca; lia) ltac:(subst ca; lia)) as Hda.
  pose proof (Hnth fb cb ltac:(lia) ltac:(subst cb; lia) ltac:(subst cb; lia)) as Hdb.
  destruct (Z.eq_dec fa fb) as [E|NE].
  - assert (Ec : ca = cb) by (subst ca cb; now rewrite E).
    rewrite Ec, E in *.
    set (lo := nth (Z.to_nat fb) v 0%Q) in *.
    set (hi := nth (Z.to_nat cb) v 0%Q) in *.
    apply Qplus_le_r. apply Qmult_le_compat_r; lra.
  - assert (Hcf : ca <= fb) by (subst ca; lia).
    pose proof (Hnth ca fb ltac:(subst ca; lia) Hcf ltac:(lia)) as Hmid.
    set (lo := nth (Z.to_nat fa) v 0%Q) in *.
    set (hi := nth (Z.to_nat ca) v 0%Q) in *.
    set (lo' := nth (Z.to_nat fb) v 0%Q) in *.
    set (hi' := nth (Z.to_nat cb) v 0%Q) in *.
    apply Qle_trans with hi.
    + assert (H1 : ((true_div a 100 - inject_Z fa) * (hi - lo)
                    <= 1 * (hi - lo))%Q)
        by (apply Qmult_le_compat_r; lra).
      lra.
    + apply Qle_trans with lo'; [exact Hmid|].
      assert (H2 : (0 <= (true_div b 100 - inject_Z fb) * (hi' - lo'))%Q)
        by (apply Qmult_le_0_compat; lra).
      lra.
Qed.

Lemma sort_nonempty (l : list Q) : l <> [] -> sort l <> [].
Proof.
  intros Hl Hs. apply Hl. apply length_zero_iff_nil.
  rewrite <- sort_length, Hs. reflexivity.
Qed.

(** The successful samples' [ttft] values are all numbers when the samples
    are timed. *)
Lemma ttfts_of_timed (results : list Sample) :
  forallb timed results = true ->
  mapM as_float (map ttft (filter (fun r => success r) results))
  = Ok (successful_ttfts results).
Proof.
  induction results as [|s rs IH]; [reflexivity|].
  cbn [forallb filter]. intros H. apply andb_true_iff in H as [Hs Hrs].
  specialize (IH Hrs). unfold successful_ttfts in *. cbn [flat_map].
  unfold timed in Hs.
  destruct (success s); [|exact IH].
  destruct (ttft s) as [t|] eqn:Et; [|discriminate].
  cbn [map mapM]. rewrite Et. cbn [as_float bind]. rewrite IH. reflexivity.
Qed.

Lemma successful_ttfts_length (results : list Sample) :
  forallb timed results = true ->
  List.length (successful_ttfts results)
  = List.length (filter (fun r => success r) results).
Proof.
  induction results as [|s rs IH]; [reflexivity|].
  cbn [forallb filter]. intros H. apply andb_true_iff in H as [Hs Hrs].
  specialize (IH Hrs). unfold successful_ttfts in *. cbn [flat_map].
  unfold timed in Hs.
  destruct (success s); [|exact IH].
  destruct (ttft s); [|discriminate].
  simpl. now rewrite IH.
Qed.

Lemma sum_from (l : list Z) (a : Z) : fold_left Z.add l a = a + sum l.
Proof.
  unfold sum. revert a.
  induction l as [|x l IH]; intros a; simpl; [lia|].
  rewrite (IH (a + x)), (IH x). lia.
Qed.

Lemma sum_successful (results : list Sample) :
  sum (map tokens (filter (fun r => success r) results))
  = successful_tokens results.
Proof.
  induction results as [|s rs IH]; [reflexivity|].
  cbn [filter successful_tokens fold_right]. fold (successful_tokens rs).
  destruct (success s); [|exact IH].
  cbn [map]. unfold sum at 1. cbn [fold_left]. rewrite sum_from, IH. lia.
Qed.

(** The early return of [_aggregate_results]. *)
Lemma aggregate_no_success (results : list Sample) (duration : Z) :
  filter (fun r => success r) results = [] ->
  _aggregate_results results duration =
    Ok {| successful_requests := 0;
          failed_requests := len results;
          ttft_p50 := 0; ttft_p95 := 0; ttft_p99 := 0;
          tokens_per_sec := 0; total_tokens := 0;
          error_rate := 1 |}.
Proof.
  intros E. unfold _aggregate_results. rewrite E.
  pose proof (len_filter_split (fun r => success r) results) as H.
  rewrite E in H. change (len []) with 0 in H.
  replace (len (filter (fun r => negb (success r)) results)) with (len results)
    by lia.
  reflexivity.
Qed.

(** The main path of [_aggregate_results] on timed samples. *)
Lemma aggregate_some_success (results : list Sample) (duration : Z) :
  forallb timed results = true ->
  filter (fun r => success r) results <> [] ->
  let v := sort (successful_ttfts results) in
  exists x50 x95 x99,
    v <> [] /\
    percentile v 50 = Ok x50 /\
    percentile v 95 = Ok x95 /\
    percentile v 99 = Ok x99 /\
    _aggregate_results results duration =
      Ok {| successful_requests := len (filter (fun r => success r) results);
            failed_requests := len (filter (fun r => negb (success r)) results);
            ttft_p50 := py_round x50 3;
            ttft_p95 := py_round x95 3;
            ttft_p99 := py_round x99 3;
            tokens_per_sec :=
              py_round (if duration >? 0
                        then true_div (successful_tokens results) duration
                        else 0%Q) 1;
            total_tokens := successful_tokens results;
            error_rate :=
              true_div (len (filter (fun r => negb (success r)) results))
                       (len results) |}.
Proof.
  intros Ht Hne v.
  assert (Hv : v <> []).
  { subst v. apply sort_nonempty. intros E.
    apply Hne, length_zero_iff_nil.
    rewrite <- successful_ttfts_length, E by exact Ht. reflexivity. }
  destruct (percentile_value v 50 Hv ltac:(lia)) as [_ H50].
  destruct (percentile_value v 95 Hv ltac:(lia)) as [_ H95].
  destruct (percentile_value v 99 Hv ltac:(lia)) as [_ H99].
  do 3 eexists. split; [exact Hv|].
  split; [exact H50|]. split; [exact H95|]. split; [exact H99|].
  unfold _aggregate_results.
  rewrite (ttfts_of_timed results Ht).
  destruct (filter (fun r => success r) results) as [|s0 ss] eqn:E;
    [contradiction|].
  cbn [bind]. fold v. rewrite H50, H95, H99. cbn [bind].
  rewrite <- E, sum_successful.
  destruct results as [|r0 rs]; [discriminate|]. reflexivity.
Qed.

Lemma aggregate_returns (results : list Sample) (duration : Z) :
  forallb timed results = true ->
  exists r, _aggregate_results results duration = Ok r.
Proof.
  intros Ht.
  destruct (filter (fun r => success r) results) as [|s0 ss] eqn:E.
  - eexists. apply aggregate_no_success, E.
  - destruct (aggregate_some_success results duration Ht)
      as (x50 & x95 & x99 & _ & _ & _ & _ & Hagg).
    { rewrite E. discriminate. }
    eexists. exact Hagg.
Qed.

Lemma as_float_all (l : list (option Q)) (l' : list Q) :
  mapM as_float l = Ok l' -> Forall (fun o => o <> None) l.
Proof.
  revert l'. induction l as [|o l IH]; intros l' H; [constructor|].
  cbn [mapM] in H. destruct o as [t|]; [|discriminate]. cbn [as_float bind] in H.
  destruct (mapM as_float l) as [l0|] eqn:E; [|discriminate].
  constructor; [discriminate | now apply (IH l0)].
Qed.

(** [_aggregate_results] returns exactly on the timed sequences; on any other
    it raises [TypeError]. *)
Lemma aggregate_ok_timed (results : list Sample) (duration : Z)
  (r : RunResult) :
  _aggregate_results results duration = Ok r -> forallb timed results = true.
Proof.
  intros H. apply forallb_forall. intros s Hin. unfold timed.
  destruct (success s) eqn:Es; [|reflexivity].
  assert (Hs : In s (filter (fun r => success r) results))
    by (apply filter_In; now split).
  unfold _aggregate_results in H.
  destruct (filter (fun r => success r) results) as [|s0 ss] eqn:E;
    [contradiction|].
  destruct (mapM as_float (map ttft (s0 :: ss))) as [l|] eqn:Em;
    [|discriminate].
  apply as_float_all in Em. rewrite Forall_forall in Em.
  specialize (Em (ttft s) (in_map ttft _ _ Hs)).
  now destruct (ttft s).
Qed.

(** ** The aggregator in binary64 arithmetic *)

(** The index [k] of [percentile64] stays within a list of [n] values. *)
Lemma percentile64_index (n p : Z) :
  1 <= n -> 0 <= p <= 99 ->
  let k := binary64 (inject_Z ((n - 1) * p) / inject_Z 100) in
  0 <= Qfloor k <= n - 1 /\ py_int k = Qfloor k.
Proof.
  intros Hn Hp k.
  set (a := (n - 1) * p) in *.
  assert (Ha : 0 <= a <= 99 * (n - 1)) by (subst a; nia).
  assert (H0 : (0 <= inject_Z a / inject_Z 100)%Q)
    by (apply (true_div_nonneg a 100); lia).
  assert (Hk0 : (0 <= k)%Q) by now apply binary64_nonneg.
  assert (Hk1 : (k <= inject_Z (n - 1))%Q).
  { destruct (Z.eq_dec a 0) as [E|NE].
    - subst k. rewrite E, binary64_zero by reflexivity.
      rewrite <- (Zle_Qle 0). lia.
    - assert (H1 : (1 # 100 <= inject_Z a / inject_Z 100)%Q).
      { apply Qle_shift_div_l; [reflexivity|].
        unfold Qle, Qmult, inject_Z. cbn [Qnum Qden]. lia. }
      apply Qle_trans with (inject_Z a / inject_Z 100 * (1 + 2 ^ (-53)))%Q.
      + apply binary64_upper.
        apply Qle_trans with (1 # 100)%Q; [|exact H1].
        apply Qle_bool_iff. vm_compute. reflexivity.
      + assert (Ha' : (inject_Z a <= 99 * inject_Z (n - 1))%Q).
        { change 99%Q with (inject_Z 99).
          rewrite <- inject_Z_mult, <- Zle_Qle. lia. }
        assert (Hn' : (0 <= inject_Z (n - 1))%Q)
          by (rewrite <- (Zle_Qle 0); lia).
        change (2 ^ (-53))%Q with (1 # 9007199254740992)%Q.
        change (inject_Z 100) with 100%Q. unfold Qdiv.
        change (/ 100)%Q with (1 # 100)%Q.
        set (A := inject_Z a) in *. set (N := inject_Z (n - 1)) in *. lra. }
  split; [|now apply py_int_floor].
  split.
  - change 0 with (Qfloor 0). now apply Qfloor_resp_le.
  - rewrite <- (Qfloor_Z (n - 1)). now apply Qfloor_resp_le.
Qed.

(** [percentile64] returns the value of the formula of the specification. *)
Lemma percentile64_value (v : list Q) (p : Z) :
  v <> [] -> 0 <= p <= 99 ->
  percentile64 v p = Ok (percentile64_spec v p).
Proof.
  intros Hv Hp.
  assert (Hn : 1 <= len v).
  { destruct v; [contradiction|]. rewrite len_cons.
    pose proof (len_nonneg v). lia. }
  destruct (percentile64_index (len v) p Hn Hp) as [Hf Hint].
  unfold percentile64, percentile64_spec. destruct v as [|x v']; [contradiction|].
  unfold py_truediv. cbn [Z.eqb bind].
  set (n := len (x :: v')) in *.
  set (k := binary64 (inject_Z ((n - 1) * p) / inject_Z 100)) in *.
  rewrite Hint. set (f := Qfloor k) in *.
  assert (Hc : (if f <? n - 1 then f + 1 else f) = Z.min (f + 1) (n - 1)).
  { destruct (Z.ltb_spec f (n - 1)); lia. }
  rewrite Hc.
  rewrite (py_index_nth (x :: v') f 0%Q) by (fold n; lia).
  rewrite (py_index_nth (x :: v') (Z.min (f + 1) (n - 1)) 0%Q) by (fold n; lia).
  reflexivity.
Qed.

(** The early return of [_aggregate_results64]. *)
Lemma aggregate64_no_success (results : list Sample) (duration : Z) :
  filter (fun r => success r) results = [] ->
  _aggregate_results64 results duration =
    Ok {| successful_requests := 0;
          failed_requests := len results;
          ttft_p50 := 0; ttft_p95 := 0; ttft_p99 := 0;
          tokens_per_sec := 0; total_tokens := 0;
          error_rate := 1 |}.
Proof.
  intros E. unfold _aggregate_results64. rewrite E.
  pose proof (len_filter_split (fun r => success r) results) as H.
  rewrite E in H. change (len []) with 0 in H.
  replace (len (filter (fun r => negb (success r)) results)) with (len results)
    by lia.
  reflexivity.
Qed.

(** The main path of [_aggregate_results64] on timed samples. *)
Lemma aggregate64_some_success (results : list Sample) (duration : Z) :
  forallb timed results = true ->
  filter (fun r => success r) results <> [] ->
  let v := sort (successful_ttfts results) in
  _aggregate_results64 results duration =
    Ok {| successful_requests := len (filter (fun r => success r) results);
          failed_requests := len (filter (fun r => negb (success r)) results);
          ttft_p50 := py_round64 (percentile64_spec v 50) 3;
          ttft_p95 := py_round64 (percentile64_spec v 95) 3;
          ttft_p99 := py_round64 (percentile64_spec v 99) 3;
          tokens_per_sec :=
            py_round64
              (if duration >? 0
               then binary64 (inject_Z (successful_tokens results)
                              / inject_Z duration)
               else 0%Q) 1;
          total_tokens := successful_tokens results;
          error_rate :=
            binary64
              (inject_Z (len (filter (fun r => negb (success r)) results))
               / inject_Z (len results)) |}.
Proof.
  intros Ht Hne v.
  assert (Hv : v <> []).
  { subst v. apply sort_nonempty. intros E.
    apply Hne, length_zero_iff_nil.
    rewrite <- successful_ttfts_length, E by exact Ht. reflexivity. }
  unfold _aggregate_results64.
  rewrite (ttfts_of_timed results Ht).
  destruct (filter (fun r => success r) results) as [|s0 ss] eqn:E;
    [contradiction|].
  cbn [bind]. fold v.
  rewrite !(percentile64_value v _ Hv) by lia. cbn [bind].
  rewrite <- E, sum_successful.
  assert (Hres : len results <> 0).
  { pose proof (len_filter_split (fun r => success r) results) as Hsplit.
    cbv beta in Hsplit. rewrite E, len_cons in Hsplit.
    pose proof (len_nonneg ss).
    pose proof (len_nonneg (filter (fun r => negb (success r)) results)).
    lia. }
  destruct results as [|r0 rs]; [discriminate|].
  rewrite (py_truediv_value _ _ Hres).
  destruct (Z.gtb_spec duration 0) as [Hd|Hd].
  - rewrite py_truediv_value by lia. reflexivity.
  - reflexivity.
Qed.

Lemma aggregate64_returns (results : list Sample) (duration : Z) :
  forallb timed results = true ->
  exists r, _aggregate_results64 results duration = Ok r.
Proof.
  intros Ht.
  destruct (filter (fun r => success r) results) as [|s0 ss] eqn:E.
  - eexists. apply aggregate64_no_success, E.
  - eexists. apply aggregate64_some_success; [exact Ht|].
    rewrite E. discriminate.
Qed.

(** The counts, the token total and the throughput of a run result that
    [_aggregate_results64] returns. *)
Lemma throughput64_value (results : list Sample) (duration : Z) (r : RunResult) :
  _aggregate_results64 results duration = Ok r ->
  successful_requests r = len (filter (fun r => success r) results) /\
  failed_requests r = len (filter (fun r => negb (success r)) results) /\
  total_tokens r = successful_tokens results /\
  tokens_per_sec r =
    py_round64 (if duration >? 0
                then binary64 (inject_Z (successful_tokens results)
                               / inject_Z duration)
                else 0%Q) 1.
Proof.
  intros Hr. unfold _aggregate_results64 in Hr.
  destruct (filter (fun r => success r) results) as [|s0 ss] eqn:E.
  - injection Hr as <-.
    cbn [successful_requests failed_requests total_tokens tokens_per_sec].
    assert (H0 : successful_tokens results = 0)
      by (rewrite <- sum_successful, E; reflexivity).
    rewrite H0. repeat split.
    destruct (duration >? 0); [|now rewrite py_round64_zero].
    rewrite (binary64_zero (inject_Z 0 / inject_Z duration)).
    + now rewrite py_round64_zero.
    + unfold Qdiv. apply Qmult_0_l.
  - rewrite <- E in Hr |- *. rewrite sum_successful in Hr.
    destruct (mapM as_float _) as [ttfts|]; [|discriminate].
    cbn [bind] in Hr.
    destruct (percentile64 (sort ttfts) 50); [|discriminate].
    destruct (percentile64 (sort ttfts) 95); [|discriminate].
    destruct (percentile64 (sort ttfts) 99); [|discriminate].
    cbn [bind] in Hr.
    destruct (Z.gtb_spec duration 0) as [Hd|Hd].
    + rewrite py_truediv_value in Hr by lia. cbn [bind] in Hr.
      destruct results as [|r0 rs]; [discriminate|].
      destruct (py_truediv _ _); [|discriminate]. cbn [bind] in Hr.
      injection Hr as <-. repeat split; reflexivity.
    + cbn [bind] in Hr.
      destruct results as [|r0 rs]; [discriminate|].
      destruct (py_truediv _ _); [|discriminate]. cbn [bind] in Hr.
      injection Hr as <-. repeat split; reflexivity.
Qed.

(** The two models of the aggregator agree on the counts and on the token
    total. *)
Lemma aggregate_models_agree (results : list Sample) (duration : Z)
  (r r' : RunResult) :
  _aggregate_results results duration = Ok r ->
  _aggregate_results64 results duration = Ok r' ->
  successful_requests r = successful_requests r' /\
  failed_requests r = failed_requests r' /\
  total_tokens r = total_tokens r'.
Proof.
  intros Hr Hr'.
  destruct (throughput64_value results duration r' Hr') as (-> & -> & -> & _).
  pose proof (aggregate_ok_timed results duration r Hr) as Ht.
  destruct (filter (fun r => success r) results) as [|s0 ss] eqn:E.
  - rewrite (aggregate_no_success results duration E) in Hr.
    injection Hr as <-. cbn [successful_requests failed_requests total_tokens].
    pose proof (len_filter_split (fun r => success r) results) as H.
    cbv beta in H. rewrite E in H. change (len []) with 0 in H.
    repeat split; [lia|].
    rewrite <- sum_successful, E. reflexivity.
  - destruct (aggregate_some_success results duration Ht)
      as (x50 & x95 & x99 & _ & _ & _ & _ & Hagg).
    { rewrite E. discriminate. }
    rewrite Hagg in Hr. injection Hr as <-.
    cbn [successful_requests failed_requests total_tokens].
    rewrite E. repeat split.
Qed.

(** ** The aggregator at work *)

(** Thirty successes with [ttft = 0.1] and 10 tokens each over 2 seconds. *)
Example steady_run :
  exists r,
    _aggregate_results
      (repeat {| ttft := Some (1 # 10); total_time := 2 # 10; tokens := 10;
                 success := true; error := None |} 30) 2 = Ok r /\
    successful_requests r = 30 /\ failed_requests r = 0 /\
    (ttft_p50 r == 1 # 10)%Q /\ (ttft_p99 r == 1 # 10)%Q /\
    total_tokens r = 300 /\ (tokens_per_sec r == 150)%Q /\
    (error_rate r == 0)%Q.
Proof. eexists. split; [vm_compute; reflexivity|]. repeat split. Qed.

(** A successful sample without [ttft] makes the aggregator raise. *)
Example untimed_sample_raises :
  _aggregate_results
    [{| ttft := None; total_time := 1; tokens := 10;
        success := true; error := None |}] 2
  = Raise (Exception "unsupported operand type(s): 'NoneType' and 'float'").
Proof. reflexivity. Qed.

(** On [tied] the two models part: the exact 95th percentile 1.6875 rounds
    to 1.688, the double that the interpolation yields lies below 1.6875 and
    rounds to 1.687. *)
Example exact_interpolation_differs :
  (py_round (percentile_spec tied 95) 3 == 1688 # 1000)%Q /\
  (percentile64_spec tied 95 < 16875 # 10000)%Q /\
  (py_round64 (percentile64_spec tied 95) 3 == binary64 (1687 # 1000))%Q.
Proof. split; [|split]; vm_compute; reflexivity. Qed.

(* ================================================================== *)
(** * Properties of the aggregator *)
(* ================================================================== *)

(** C1 (evaluation at the empty sequence).  Aggregating no samples at all
    takes the early return of [_aggregate_results]: the result reports
    [error_rate = 1], not the [0] that the definition
    [failed_count / total_count] with [0/0 := 0] asks for. *)
Theorem C1_empty_sequence_error_rate :
  forall duration : Z,
    exists r, _aggregate_results [] duration = Ok r /\
              error_rate r = 1%Q /\ ~ (error_rate r == 0)%Q.
Proof.
  intros duration. eexists. split; [reflexivity|].
  split; [reflexivity|]. cbn. discriminate.
Qed.

(** A non-empty sequence without a successful sample: [error_rate = 1], every
    sample is counted as failed and the other numeric fields are zero. *)
Lemma aggregate_all_failed (results : list Sample) (duration : Z) :
  results <> [] -> filter (fun r => success r) results = [] ->
  exists r, _aggregate_results results duration = Ok r /\
    error_rate r = 1%Q /\ failed_requests r = len results /\
    successful_requests r = 0 /\ total_tokens r = 0 /\
    ttft_p50 r = 0%Q /\ ttft_p95 r = 0%Q /\ ttft_p99 r = 0%Q /\
    tokens_per_sec r = 0%Q.
Proof.
  intros _ E. eexists. split; [apply aggregate_no_success, E|].
  cbn. repeat split; reflexivity.
Qed.

(** C2.  In the arithmetic of the code (binary64), on a non-empty list and
    for [p] among 50, 95 and 99, [percentile] returns the linear
    interpolation between order statistics of the
    specification, [v[f] + (k-f) * (v[c] - v[f])] with [k = (n-1) * p / 100],
    [f = floor k] and [c = min (f+1) (n-1)]; the run result carries these
    values, computed on the ascending [ttft] values of the successful
    samples and rounded to three decimals.  On the doubles
    [0.1, 0.2, 0.3, 0.4, 0.5] the median is [0.3] and the 99th percentile is
    [0.496]; on [0, 0, 1.875] the 95th and 99th percentiles are [1.687] and
    [1.837]. *)
Theorem C2_percentile_linear_interpolation :
  (forall (v : list Q) (p : Z),
     v <> [] -> In p [50; 95; 99] ->
     percentile64 v p = Ok (percentile64_spec v p))
  /\ (forall (results : list Sample) (duration : Z),
        forallb timed results = true ->
        filter (fun r => success r) results <> [] ->
        let v := sort (successful_ttfts results) in
        StronglySorted Qle v /\ Permutation (successful_ttfts results) v /\
        exists r, _aggregate_results64 results duration = Ok r /\
          (ttft_p50 r == py_round64 (percentile64_spec v 50) 3)%Q /\
          (ttft_p95 r == py_round64 (percentile64_spec v 95) 3)%Q /\
          (ttft_p99 r == py_round64 (percentile64_spec v 99) 3)%Q)
  /\ (exists r, _aggregate_results64 (measured fifths64) 10 = Ok r /\
        (ttft_p50 r == binary64 (3 # 10))%Q /\
        (ttft_p99 r == binary64 (496 # 1000))%Q)
  /\ (exists r, _aggregate_results64 (measured tied) 10 = Ok r /\
        (ttft_p50 r == 0)%Q /\
        (ttft_p95 r == binary64 (1687 # 1000))%Q /\
        (ttft_p99 r == binary64 (1837 # 1000))%Q).
Proof.
  split; [|split; [|split]].
  - intros v p Hv Hp. apply percentile64_value; [exact Hv|].
    simpl in Hp. lia.
  - intros results duration Ht Hne v.
    split; [apply sort_sorted|]. split; [apply sort_perm|].
    eexists. split; [now apply aggregate64_some_success|].
    cbn [ttft_p50 ttft_p95 ttft_p99]. fold v. repeat split; reflexivity.
  - eexists. split; [vm_compute; reflexivity|]. split; vm_compute; reflexivity.
  - eexists. split; [vm_compute; reflexivity|].
    split; [|split]; vm_compute; reflexivity.
Qed.

Lemma C2_witness :
  percentile64 tied 95 = Ok (percentile64_spec tied 95)
  /\ exists r, _aggregate_results64 mixed_run 2 = Ok r /\
       (ttft_p99 r
        == py_round64
             (percentile64_spec (sort (successful_ttfts mixed_run)) 99) 3)%Q.
Proof.
  split.
  - apply (proj1 C2_percentile_linear_interpolation tied 95).
    + discriminate.
    + simpl. auto.
  - destruct (proj1 (proj2 C2_percentile_linear_interpolation) mixed_run 2)
      as (_ & _ & r & Hr & _ & _ & H99).
    + reflexivity.
    + discriminate.
    + exists r. split; [exact Hr | exact H99].
Defined.

(** C3.  The aggregator returns a run result on every sequence of timed
    samples; whenever it returns one, the counts add up to the number of
    samples, and the error rate of a non-empty sequence lies between 0 and
    1. *)
Theorem C3_counts_and_error_rate :
  forall (results : list Sample) (duration : Z),
    (forallb timed results = true ->
     exists r, _aggregate_results results duration = Ok r) /\
    (forall r, _aggregate_results results duration = Ok r ->
       successful_requests r + failed_requests r = len results /\
       (results <> [] -> (0 <= error_rate r /\ error_rate r <= 1)%Q)).
Proof.
  intros results duration. split; [apply aggregate_returns|].
  intros r Hr. pose proof (aggregate_ok_timed results duration r Hr) as Ht.
  destruct (filter (fun r => success r) results) as [|s0 ss] eqn:E.
  - rewrite (aggregate_no_success results duration E) in Hr.
    injection Hr as <-. cbn. split; [reflexivity|]. intros _. split; discriminate.
  - destruct (aggregate_some_success results duration Ht)
      as (x50 & x95 & x99 & _ & _ & _ & _ & Hagg).
    { rewrite E. discriminate. }
    rewrite Hagg in Hr. injection Hr as <-.
    cbn [successful_requests failed_requests error_rate].
    split; [apply len_filter_split|].
    intros Hne.
    pose proof (len_filter_split (fun r => success r) results) as Hsplit.
    cbv beta in Hsplit.
    pose proof (len_nonneg (filter (fun r => success r) results)).
    pose proof (len_nonneg (filter (fun r => negb (success r)) results)).
    assert (0 < len results).
    { destruct results; [contradiction|]. rewrite len_cons.
      pose proof (len_nonneg results). lia. }
    split; [apply true_div_nonneg | apply true_div_le_1]; lia.
Qed.

Lemma C3_witness :
  exists r, _aggregate_results mixed_run 2 = Ok r /\
    successful_requests r + failed_requests r = 6 /\
    (mixed_run <> [] -> (0 <= error_rate r /\ error_rate r <= 1)%Q).
Proof.
  destruct (C3_counts_and_error_rate mixed_run 2) as [Hret Hinv].
  destruct (Hret eq_refl) as (r & Hr).
  exists r. split; [exact Hr | exact (Hinv r Hr)].
Defined.

(** C8.  In the arithmetic of the code (binary64) and for a positive
    configured duration, the aggregator returns a run result on every
    sequence of timed samples; whenever it returns
    one, [total_tokens] is the sum of the token counts of the successful
    samples and [tokens_per_sec] is the quotient of that sum by the
    configured duration, rounded to one decimal; no measured time enters the
    computation.  7 tokens over 20 seconds give [0.3], 1503 tokens over 60
    seconds give [25.1]. *)
Theorem C8_throughput :
  (forall (results : list Sample) (duration : Z),
     0 < duration ->
     (forallb timed results = true ->
      exists r, _aggregate_results64 results duration = Ok r) /\
     (forall r, _aggregate_results64 results duration = Ok r ->
        total_tokens r = successful_tokens results /\
        exists q, py_truediv (total_tokens r) duration = Ok q /\
                  (tokens_per_sec r == py_round64 q 1)%Q))
  /\ (exists r, _aggregate_results64 [succeeded (1 # 2) 7] 20 = Ok r /\
        total_tokens r = 7 /\ (tokens_per_sec r == binary64 (3 # 10))%Q)
  /\ (exists r, _aggregate_results64
                  [succeeded (1 # 2) 1500; timed_out; succeeded (1 # 4) 3] 60
                = Ok r /\
        total_tokens r = 1503 /\ (tokens_per_sec r == binary64 (251 # 10))%Q).
Proof.
  split; [|split].
  - intros results duration Hd. split; [apply aggregate64_returns|].
    intros r Hr.
    destruct (throughput64_value results duration r Hr)
      as (_ & _ & Htot & Htps).
    split; [exact Htot|].
    rewrite Htot, Htps. destruct (Z.gtb_spec duration 0); [|lia].
    eexists. split; [apply py_truediv_value; lia | reflexivity].
  - eexists. split; [vm_compute; reflexivity|].
    split; [reflexivity | vm_compute; reflexivity].
  - eexists. split; [vm_compute; reflexivity|].
    split; [reflexivity | vm_compute; reflexivity].
Qed.

Lemma C8_witness :
  exists r, _aggregate_results64 mixed_run 2 = Ok r /\
    total_tokens r = 81 /\
    (tokens_per_sec r == 405 # 10)%Q.
Proof.
  destruct (proj1 C8_throughput mixed_run 2 eq_refl) as [Hret Hinv].
  destruct (Hret eq_refl) as (r & Hr).
  exists r. split; [exact Hr|].
  destruct (Hinv r Hr) as (Htot & q & Hq & Htps).
  split; [exact Htot|]. rewrite Htps. rewrite Htot in Hq.
  injection Hq as <-. vm_compute. reflexivity.
Defined.

(** C10.  Whenever the aggregator returns a run result, its percentiles are
    ordered: [ttft_p50 <= ttft_p95 <= ttft_p99].  With successful samples
    this is the monotonicity of [percentile] in [p] on the ascending [ttft]
    list, kept by the rounding. *)
Theorem C10_percentiles_ordered :
  forall (results : list Sample) (duration : Z),
    (forallb timed results = true ->
     exists r, _aggregate_results results duration = Ok r) /\
    (forall r, _aggregate_results results duration = Ok r ->
       (ttft_p50 r <= ttft_p95 r)%Q /\ (ttft_p95 r <= ttft_p99 r)%Q).
Proof.
  intros results duration. split; [apply aggregate_returns|].
  intros r Hr. pose proof (aggregate_ok_timed results duration r Hr) as Ht.
  destruct (filter (fun r => success r) results) as [|s0 ss] eqn:E.
  - rewrite (aggregate_no_success results duration E) in Hr.
    injection Hr as <-. cbn. split; discriminate.
  - destruct (aggregate_some_success results duration Ht)
      as (x50 & x95 & x99 & Hv & H50 & H95 & H99 & Hagg).
    { rewrite E. discriminate. }
    rewrite Hagg in Hr. injection Hr as <-.
    pose proof (sort_sorted (successful_ttfts results)) as Hs.
    cbn [ttft_p50 ttft_p95 ttft_p99].
    split; apply py_round_mono.
    + apply (percentile_monotone _ 50 95 x50 x95 Hs Hv); (lia || assumption).
    + apply (percentile_monotone _ 95 99 x95 x99 Hs Hv); (lia || assumption).
Qed.

Lemma C10_witness :
  exists r, _aggregate_results mixed_run 2 = Ok r /\
    (ttft_p50 r <= ttft_p95 r)%Q /\ (ttft_p95 r <= ttft_p99 r)%Q.
Proof.
  destruct (C10_percentiles_ordered mixed_run 2) as [Hret Hinv].
  destruct (Hret eq_refl) as (r & Hr).
  exists r. split; [exact Hr | exact (Hinv r Hr)].
Defined.

(* ================================================================== *)
(** * Facts about the prober *)
(* ================================================================== *)

(** The message that the handlers of [measure_single_request] record. *)
Lemma measure_raises (self : RealBenchmarkEngine) (prompt : string)
  (x : exchange) (e : exn) :
  request_raises self prompt x e ->
  measure_single_request self prompt x =
    Ok (failure x match e with
                  | TimeoutError => "Timeout"
                  | Exception msg => msg
                  end).
Proof.
  unfold measure_single_request, failure.
  intros [Hb | (url & payload & Hb & [Hp | (r & Hp & Hs & Hr)])];
    rewrite Hb; cbn [bind catch].
  - now destruct e.
  - rewrite Hp. cbn [bind catch]. now destruct e.
  - rewrite Hp. cbn [bind catch]. rewrite Hs. cbn [Z.eqb Pos.eqb negb].
    rewrite Hr. cbn [bind catch]. now destruct e.
Qed.

Lemma measure_http_error (self : RealBenchmarkEngine) (prompt : string)
  (x : exchange) (url : string) (payload : json) (r : response) :
  _build_request self prompt = Ok (url, payload) ->
  post x url payload = Ok r -> status r <> 200 ->
  measure_single_request self prompt x =
    Ok (failure x ("HTTP " ++ str_of_int (status r))).
Proof.
  intros Hb Hp Hs. unfold measure_single_request, failure.
  rewrite Hb. cbn [bind catch]. rewrite Hp. cbn [bind catch].
  destruct (Z.eqb_spec (status r) 200); [contradiction|]. reflexivity.
Qed.

Lemma measure_success (self : RealBenchmarkEngine) (prompt : string)
  (x : exchange) (url : string) (payload : json) (r : response)
  (seen : option Q) (n : Z) :
  _build_request self prompt = Ok (url, payload) ->
  post x url payload = Ok r -> status r = 200 ->
  read_response self (start_time x) r (None, 0) = Ok (seen, n) ->
  measure_single_request self prompt x =
    Ok {| ttft := Some match seen with
                       | None => (end_time x - start_time x)%Q
                       | Some t => t
                       end;
          total_time := end_time x - start_time x;
          tokens := if n >? 0 then n else 50;
          success := true;
          error := None |}.
Proof.
  intros Hb Hp Hs Hr. unfold measure_single_request.
  rewrite Hb. cbn [bind catch]. rewrite Hp. cbn [bind catch].
  rewrite Hs. cbn [Z.eqb Pos.eqb negb]. rewrite Hr. reflexivity.
Qed.

(** Every path of the prober ends in a sample, and the sample is timed. *)
Lemma measure_returns (self : RealBenchmarkEngine) (prompt : string)
  (x : exchange) :
  exists s, measure_single_request self prompt x = Ok s /\ timed s = true.
Proof.
  assert (Hfail : forall e, request_raises self prompt x e ->
            exists s, measure_single_request self prompt x = Ok s /\
                      timed s = true).
  { intros e He. eexists. split; [apply measure_raises, He | reflexivity]. }
  destruct (_build_request self prompt) as [[url payload]|e] eqn:Hb;
    [|apply (Hfail e); now left].
  destruct (post x url payload) as [r|e] eqn:Hp;
    [|apply (Hfail e); right; exists url, payload; split; [exact Hb | now left]].
  destruct (Z.eq_dec (status r) 200) as [Hs|Hs].
  - destruct (read_response self (start_time x) r (None, 0))
      as [[seen n]|e] eqn:Hr.
    + eexists. split; [eapply measure_success; eassumption | reflexivity].
    + apply (Hfail e). right. exists url, payload. split; [exact Hb|].
      right. now exists r.
  - eexists. split; [eapply measure_http_error; eassumption | reflexivity].
Qed.

(** ** The streaming loops *)

(** Case analysis on the chain of [result]-valued calls that parse a body. *)
Ltac step_calls :=
  repeat (match goal with
          | |- context [json_body ?r] => destruct (json_body r)
          | |- context [py_contains ?k ?d] =>
              destruct (py_contains k d) as [[|]|]
          | |- context [py_getitem ?d ?k] => destruct (py_getitem d k)
          | |- context [py_get ?d ?k ?v] => destruct (py_get d k v)
          | |- context [py_split ?t] => destruct (py_split t)
          end; cbn).

Section Streaming.

Variable self : RealBenchmarkEngine.
Variable start : Q.

Lemma read_response_streaming (r : response) (st : option Q * Z) :
  streaming self = true ->
  read_response self start r st =
    async_for (loop_body self start) (content r) (content_error r) st.
Proof.
  unfold streaming, read_response, loop_body.
  destruct (String.eqb (engine self) "llama.cpp"); [reflexivity|].
  cbn [orb]. intros ->. reflexivity.
Qed.

(** One turn of the loop: [ttft] is set if it was not, and the token count
    grows by the events of the line; the body never raises. *)
Lemma loop_body_step (seen : option Q) (n : Z) (now : Q) (l : line) :
  loop_body self start (seen, n) (now, l) =
    Ok (match seen with
        | None => Some (now - start)%Q
        | Some _ => seen
        end, n + line_events self l).
Proof.
  unfold line_events, loop_body.
  destruct (String.eqb (engine self) "llama.cpp").
  - unfold llama_cpp_body. destruct l as [| |data]; cbn;
      rewrite ?Z.add_0_r; try reflexivity.
    destruct (py_contains "content" data) as [[|]|]; cbn;
      rewrite ?Z.add_0_r; reflexivity.
  - unfold ollama_body. destruct l as [| |data]; cbn;
      rewrite ?Z.add_0_r; try reflexivity.
    destruct (py_contains "response" data) as [[|]|]; cbn;
      rewrite ?Z.add_0_r; try reflexivity.
    destruct (py_get data "response" (JStr "")) as [text|]; cbn;
      rewrite ?Z.add_0_r; try reflexivity.
    destruct (py_split text) as [words|]; cbn;
      rewrite ?Z.add_0_r; reflexivity.
Qed.

Lemma line_events_nonneg (l : line) : 0 <= line_events self l.
Proof.
  unfold line_events, loop_body.
  destruct (String.eqb (engine self) "llama.cpp").
  - unfold llama_cpp_body. destruct l as [| |data]; cbn; try lia.
    step_calls; lia.
  - unfold ollama_body. destruct l as [| |data]; cbn; try lia.
    step_calls; try lia. apply len_nonneg.
Qed.

Lemma line_events_not_json (l : line) :
  is_json l = false -> line_events self l = 0.
Proof.
  unfold line_events, loop_body.
  destruct l as [| |data]; [| |discriminate]; intros _;
    destruct (String.eqb (engine self) "llama.cpp"); reflexivity.
Qed.

(** A line counts only if it parses and passes the [in] test of the
    body. *)
Lemma line_events_key_test (l : line) :
  0 < line_events self l -> passes_key_test (content_key self) l = true.
Proof.
  unfold line_events, loop_body, content_key, passes_key_test.
  destruct (String.eqb (engine self) "llama.cpp").
  - unfold llama_cpp_body. destruct l as [| |data]; cbn; try lia.
    destruct (py_contains "content" data) as [[|]|]; cbn;
      (reflexivity || lia).
  - unfold ollama_body. destruct l as [| |data]; cbn; try lia.
    destruct (py_contains "response" data) as [[|]|]; cbn;
      (reflexivity || lia).
Qed.

(** In the ollama loop only an object with a [response] field counts. *)
Lemma ollama_events_field (l : line) :
  String.eqb (engine self) "llama.cpp" = false ->
  0 < line_events self l -> has_field "response" l = true.
Proof.
  unfold line_events, loop_body, has_field. intros ->.
  unfold ollama_body. destruct l as [| |data]; cbn; try lia.
  destruct data; cbn; try lia.
  - destruct (is_substring "response" s); cbn; lia.
  - destruct (existsb (str_eq "response") xs); cbn; lia.
  - destruct (has_key "response" kvs); cbn; [reflexivity | lia].
Qed.

Lemma stream_events_nonneg (lines : list (Q * line)) :
  0 <= stream_events self lines.
Proof.
  induction lines as [|item lines IH]; cbn; [lia|].
  fold (stream_events self lines).
  pose proof (line_events_nonneg (snd item)). lia.
Qed.

Lemma stream_events_filter (lines : list (Q * line)) :
  stream_events self lines =
  stream_events self (filter (fun item => is_json (snd item)) lines).
Proof.
  induction lines as [|item lines IH]; [reflexivity|].
  cbn [stream_events fold_right filter]. fold (stream_events self lines).
  destruct (is_json (snd item)) eqn:E.
  - cbn [fold_right].
    fold (stream_events self (filter (fun item => is_json (snd item)) lines)).
    now rewrite IH.
  - rewrite (line_events_not_json _ E), IH. reflexivity.
Qed.

(** The loop over a body that closes normally. *)
Lemma async_for_stream (lines : list (Q * line)) (seen : option Q) (n : Z) :
  async_for (loop_body self start) lines None (seen, n) =
    Ok (match seen, lines with
        | Some _, _ => seen
        | None, [] => None
        | None, (now, _) :: _ => Some (now - start)%Q
        end, n + stream_events self lines).
Proof.
  revert seen n. induction lines as [|[now l] lines IH]; intros seen n.
  - cbn. rewrite Z.add_0_r. now destruct seen.
  - cbn [async_for]. rewrite loop_body_step. cbn [bind]. rewrite IH.
    cbn [stream_events fold_right snd]. fold (stream_events self lines).
    rewrite Z.add_assoc. now destruct seen.
Qed.

(** The loop over a body whose iteration raises. *)
Lemma async_for_breaks (lines : list (Q * line)) (e : exn)
  (st : option Q * Z) :
  async_for (loop_body self start) lines (Some e) st = Raise e.
Proof.
  revert st. induction lines as [|[now l] lines IH]; intros [seen n].
  - reflexivity.
  - cbn [async_for]. rewrite loop_body_step. cbn [bind]. apply IH.
Qed.

(** A stream that breaks makes the request fail with the exception. *)
Lemma stream_break_raises (r : response) (e : exn) (st : option Q * Z) :
  streaming self = true -> content_error r = Some e ->
  read_response self start r st = Raise e.
Proof.
  intros Hst He. rewrite read_response_streaming by exact Hst.
  rewrite He. apply async_for_breaks.
Qed.

(** A [vllm] reply that [response.json()] cannot decode makes the request
    fail with the exception. *)
Lemma vllm_undecodable_raises (r : response) (e : exn) (st : option Q * Z) :
  engine self = "vllm" -> json_body r = Raise e ->
  read_response self start r st = Raise e.
Proof.
  intros Hv He. unfold read_response. rewrite Hv. cbn.
  unfold vllm_body. destruct st as [seen n]. now rewrite He.
Qed.

Lemma parsed_tokens_nonneg (r : response) : 0 <= parsed_tokens self start r.
Proof.
  unfold parsed_tokens.
  destruct (streaming self) eqn:Hst.
  - rewrite read_response_streaming by exact Hst.
    destruct (content_error r) as [e|].
    + rewrite async_for_breaks. lia.
    + rewrite async_for_stream.
      pose proof (stream_events_nonneg (content r)). lia.
  - unfold streaming in Hst. apply orb_false_iff in Hst as [E1 E2].
    unfold read_response. rewrite E1, E2.
    destruct (String.eqb (engine self) "vllm"); [|cbn; lia].
    unfold vllm_body. step_calls; try lia. apply len_nonneg.
Qed.

End Streaming.

(** On a JSON object the [in] test is the presence of the field. *)
Lemma key_test_object (key : string) (kvs : list (string * json)) :
  passes_key_test key (Json (JObj kvs)) = has_field key (Json (JObj kvs)).
Proof. reflexivity. Qed.

(** ** The model at work *)

Example ollama_counts_words :
  measure_single_request ollama "Hello"
    (answered (streamed [(1%Q, Json (JObj [("response", JStr " a  bb c ")]));
                         (2%Q, Json (JObj [("response", JInt 3)]));
                         (3%Q, Json (JObj [("done", JBool true)]))]))
  = Ok {| ttft := Some (1 - 0)%Q; total_time := 4 - 0; tokens := 3;
          success := true; error := None |}.
Proof. reflexivity. Qed.

Example vllm_counts_words :
  measure_single_request (mkEngine "vllm" "http://localhost:8000" "m") "Hello"
    (answered {| status := 200; content := []; content_error := None;
                 json_body := Ok (JObj [("choices",
                                JArr [JObj [("text", JStr "one two three");
                                            ("finish_reason", JStr "stop")]])]);
                 json_time := 3 |})
  = Ok {| ttft := Some (3 - 0)%Q; total_time := 4 - 0; tokens := 3;
          success := true; error := None |}.
Proof. reflexivity. Qed.

Example vllm_empty_choices_fails :
  measure_single_request (mkEngine "vllm" "http://localhost:8000" "m") "Hello"
    (answered {| status := 200; content := []; content_error := None;
                 json_body := Ok (JObj [("choices", JArr [])]);
                 json_time := 3 |})
  = Ok {| ttft := None; total_time := 4 - 0; tokens := 0;
          success := false; error := Some "list index out of range" |}.
Proof. reflexivity. Qed.

Example unknown_engine_fails :
  measure_single_request (mkEngine "tgi" "http://localhost:8000" "m") "Hello"
    (answered late_content)
  = Ok (failure (answered late_content) "Unknown engine: tgi").
Proof. reflexivity. Qed.

(* ================================================================== *)
(** * Properties of the prober *)
(* ================================================================== *)

(** C4 (as amended).  For a streaming engine and a 200 response whose body
    closes normally, [ttft] is the arrival of the first line of the body,
    whatever the line holds; when the body has no line, [ttft] is the total
    time. *)
Theorem C4_ttft_at_first_line :
  forall (self : RealBenchmarkEngine) (prompt : string) (x : exchange)
         (url : string) (payload : json) (r : response),
    streaming self = true ->
    _build_request self prompt = Ok (url, payload) ->
    post x url payload = Ok r -> status r = 200 -> content_error r = None ->
    exists s, measure_single_request self prompt x = Ok s /\
      success s = true /\
      ttft s = Some match content r with
                    | [] => (end_time x - start_time x)%Q
                    | (now, _) :: _ => (now - start_time x)%Q
                    end.
Proof.
  intros self prompt x url payload r Hst Hb Hp Hs Hc.
  eexists. split.
  - eapply measure_success; try eassumption.
    rewrite read_response_streaming by exact Hst.
    rewrite Hc. apply async_for_stream.
  - split; [reflexivity|]. cbn [ttft].
    now destruct (content r) as [|[now l] rest].
Qed.

Lemma C4_witness :
  exists s, measure_single_request llama "Hello" (answered late_content) = Ok s /\
    success s = true /\ ttft s = Some (1 - 0)%Q.
Proof.
  apply (C4_ttft_at_first_line llama "Hello" (answered late_content)
           "http://localhost:8080/completion"
           (JObj [("prompt", JStr "Hello"); ("n_predict", JInt 512);
                  ("temperature", JFloat (7 # 10)); ("stream", JBool true)])
           late_content); reflexivity.
Defined.

(** C4 (as stated) fails: in [late_content] the first line that yields a
    token event arrives at time 2, after a line that is not JSON arrived at
    time 1; the request started at time 0 and its sample has [ttft = 1], not
    [2]. *)
Lemma C4_counterexample :
  first_content_arrival llama (content late_content) = Some 2%Q /\
  exists s t, measure_single_request llama "Hello" (answered late_content) = Ok s /\
    success s = true /\ ttft s = Some t /\
    (t == 1)%Q /\ ~ (t == 2 - start_time (answered late_content))%Q.
Proof.
  split; [reflexivity|].
  do 2 eexists. split; [reflexivity|]. split; [reflexivity|].
  split; [reflexivity|]. split; [reflexivity|]. cbn. discriminate.
Qed.

(** C5.  The prober returns exactly one sample on every input and never
    raises: a status other than 200 gives the HTTP failure sample, a timeout
    gives the [Timeout] sample, any other exception [e] gives the failure
    sample that carries [str(e)]; a failure sample has no [ttft], no tokens
    and the time elapsed so far as [total_time]. *)
Theorem C5_one_sample_never_raises :
  forall (self : RealBenchmarkEngine) (prompt : string) (x : exchange),
    exists s, measure_single_request self prompt x = Ok s /\
      (forall url payload r,
          _build_request self prompt = Ok (url, payload) ->
          post x url payload = Ok r -> status r <> 200 ->
          s = failure x ("HTTP " ++ str_of_int (status r))) /\
      (request_raises self prompt x TimeoutError -> s = failure x "Timeout") /\
      (forall msg, request_raises self prompt x (Exception msg) ->
                   s = failure x msg).
Proof.
  intros self prompt x.
  destruct (measure_returns self prompt x) as (s & Hs & _).
  exists s. split; [exact Hs|]. repeat split.
  - intros url payload r Hb Hp Hne.
    rewrite (measure_http_error self prompt x url payload r Hb Hp Hne) in Hs.
    now injection Hs.
  - intros He. rewrite (measure_raises self prompt x _ He) in Hs.
    now injection Hs.
  - intros msg He. rewrite (measure_raises self prompt x _ He) in Hs.
    now injection Hs.
Qed.

Lemma C5_witness :
  (exists s, measure_single_request llama "Hello" (answered server_error) = Ok s /\
             s = failure (answered server_error) "HTTP 500") /\
  (exists s, measure_single_request llama "Hello" (refused TimeoutError) = Ok s /\
             s = failure (refused TimeoutError) "Timeout") /\
  (exists s, measure_single_request llama "Hello" (answered interrupted) = Ok s /\
             s = failure (answered interrupted) "Timeout") /\
  (exists s, measure_single_request llama "Hello"
               (refused (Exception "Connection reset by peer")) = Ok s /\
             s = failure (refused (Exception "Connection reset by peer"))
                   "Connection reset by peer").
Proof.
  pose (url := "http://localhost:8080/completion").
  pose (payload := JObj [("prompt", JStr "Hello"); ("n_predict", JInt 512);
                         ("temperature", JFloat (7 # 10));
                         ("stream", JBool true)]).
  repeat split.
  - destruct (C5_one_sample_never_raises llama "Hello" (answered server_error))
      as (s & Hs & Hhttp & _).
    exists s. split; [exact Hs|].
    apply (Hhttp url payload server_error);
      [reflexivity | reflexivity | discriminate].
  - destruct (C5_one_sample_never_raises llama "Hello" (refused TimeoutError))
      as (s & Hs & _ & Htimeout & _).
    exists s. split; [exact Hs|].
    apply Htimeout. right. exists url, payload. split; [reflexivity|]. now left.
  - destruct (C5_one_sample_never_raises llama "Hello" (answered interrupted))
      as (s & Hs & _ & Htimeout & _).
    exists s. split; [exact Hs|].
    apply Htimeout. right. exists url, payload. split; [reflexivity|].
    right. exists interrupted. repeat split.
  - destruct (C5_one_sample_never_raises llama "Hello"
                (refused (Exception "Connection reset by peer")))
      as (s & Hs & _ & _ & Hother).
    exists s. split; [exact Hs|].
    apply Hother. right. exists url, payload. split; [reflexivity|]. now left.
Defined.

(** C6.  A request answered with status 200 whose body is read to the end
    succeeds; its token count is the number of parsed token events when that
    number is positive, and the fallback 50 when it is zero. *)
Theorem C6_token_fallback :
  forall (self : RealBenchmarkEngine) (prompt : string) (x : exchange)
         (url : string) (payload : json) (r : response) (st : option Q * Z),
    _build_request self prompt = Ok (url, payload) ->
    post x url payload = Ok r -> status r = 200 ->
    read_response self (start_time x) r (None, 0) = Ok st ->
    let parsed := parsed_tokens self (start_time x) r in
    exists s, measure_single_request self prompt x = Ok s /\
      success s = true /\ parsed = snd st /\ 0 <= parsed /\
      (parsed = 0 -> tokens s = 50) /\
      (0 < parsed -> tokens s = parsed).
Proof.
  intros self prompt x url payload r [seen n] Hb Hp Hs Hr parsed.
  assert (Hn : parsed = n) by (subst parsed; unfold parsed_tokens; now rewrite Hr).
  pose proof (parsed_tokens_nonneg self (start_time x) r) as Hpos.
  fold parsed in Hpos. rewrite Hn in *.
  eexists. split; [eapply measure_success; eassumption|].
  cbn [success tokens snd]. repeat split; try assumption.
  - intros ->. reflexivity.
  - intros H. destruct (Z.gtb_spec n 0); [reflexivity | lia].
Qed.

Lemma C6_witness :
  exists s, measure_single_request llama "Hello" (answered no_tokens) = Ok s /\
    success s = true /\ tokens s = 50.
Proof.
  destruct (C6_token_fallback llama "Hello" (answered no_tokens)
              "http://localhost:8080/completion"
              (JObj [("prompt", JStr "Hello"); ("n_predict", JInt 512);
                     ("temperature", JFloat (7 # 10)); ("stream", JBool true)])
              no_tokens (Some (1 - 0)%Q, 0))
    as (s & Hs & Hok & _ & _ & Hzero & _); try reflexivity.
  exists s. split; [exact Hs|]. split; [exact Hok|].
  apply Hzero. reflexivity.
Defined.

(** Lines that are not JSON.  For a streaming engine and a 200 response
    whose body closes normally, lines that are not JSON never make the
    prober raise or fail: the sample is a success, its token events are those
    of the JSON lines alone, and a line yields token events only if it parses
    and passes the membership test of the loop body for the engine's key.  On
    a JSON object the test is the presence of the field, and the ollama loop
    counts on no other line. *)
Lemma malformed_lines_skipped :
  forall (self : RealBenchmarkEngine) (prompt : string) (x : exchange)
         (url : string) (payload : json) (r : response),
    streaming self = true ->
    _build_request self prompt = Ok (url, payload) ->
    post x url payload = Ok r -> status r = 200 -> content_error r = None ->
    exists s, measure_single_request self prompt x = Ok s /\
      success s = true /\ error s = None /\
      parsed_tokens self (start_time x) r = stream_events self (content r) /\
      stream_events self (content r) =
        stream_events self (filter (fun item => is_json (snd item)) (content r)) /\
      (forall l, is_json l = false -> line_events self l = 0) /\
      (forall l, 0 < line_events self l ->
         passes_key_test (content_key self) l = true /\
         (forall kvs, l = Json (JObj kvs) -> has_key (content_key self) kvs = true) /\
         (engine self = "ollama" -> has_field (content_key self) l = true)).
Proof.
  intros self prompt x url payload r Hst Hb Hp Hs Hc.
  assert (Hr : read_response self (start_time x) r (None, 0) =
               Ok (match content r with
                   | [] => None
                   | (now, _) :: _ => Some (now - start_time x)%Q
                   end, stream_events self (content r))).
  { rewrite read_response_streaming by exact Hst. rewrite Hc.
    rewrite async_for_stream. reflexivity. }
  eexists. split; [eapply measure_success; eassumption|].
  split; [reflexivity|]. split; [reflexivity|].
  split; [unfold parsed_tokens; now rewrite Hr|].
  split; [apply stream_events_filter|].
  split; [apply line_events_not_json|].
  intros l Hl. pose proof (line_events_key_test self l Hl) as Hk.
  split; [exact Hk|]. split.
  - intros kvs ->. exact Hk.
  - intros He. unfold content_key. rewrite He. cbn [String.eqb Ascii.eqb Bool.eqb].
    apply (ollama_events_field self l); [now rewrite He | exact Hl].
Qed.

(** C7 (evaluation at [stray_string]).  The body holds a line that is not
    JSON, one object with a [content] field and the JSON string ["content"].
    The line that is not JSON is skipped and the request succeeds, but the
    sample reports 2 tokens although a single line is a JSON object with the
    [content] field: the llama.cpp loop tests ['content' in data] on whatever
    [json.loads] returns, and on a string the test is a substring test.  The
    ollama loop, which goes on to call [data.get], counts nothing on the
    string ["response"]. *)
Theorem C7_string_line_counted :
  exists s,
    measure_single_request llama "Hello" (answered stray_string) = Ok s /\
    success s = true /\ error s = None /\ tokens s = 2 /\
    stream_events llama (content stray_string) = 2 /\
    len (filter (fun item => has_field (content_key llama) (snd item))
                (content stray_string)) = 1 /\
    line_events llama Garbage = 0 /\
    line_events llama (Json (JStr "content")) = 1 /\
    has_field (content_key llama) (Json (JStr "content")) = false /\
    line_events ollama (Json (JStr "response")) = 0.
Proof. eexists. repeat split; reflexivity. Qed.

(* ================================================================== *)
(** * Properties of [run_real_benchmark] *)
(* ================================================================== *)

(** With a non-empty prompt list every iteration of a worker yields a timed
    sample. *)
Lemma workers_return (self : RealBenchmarkEngine) (prompts : list string)
  (its : list attempt) :
  prompts <> [] ->
  exists samples, mapM (worker_body self prompts) its = Ok samples /\
                  forallb timed samples = true.
Proof.
  intros Hp.
  assert (Hlen : 0 < len prompts).
  { destruct prompts; [contradiction|]. rewrite len_cons.
    pose proof (len_nonneg prompts). lia. }
  induction its as [|a its (samples & IH & Ht)].
  - exists []. split; reflexivity.
  - cbn [mapM]. unfold worker_body at 1. unfold py_mod.
    destruct (Z.eqb_spec (len prompts) 0); [lia|]. cbn [bind].
    rewrite (py_index_nth prompts _ "")
      by (apply Z.mod_pos_bound; exact Hlen).
    cbn [bind].
    destruct (measure_returns self
                (nth (Z.to_nat (prompt_idx a mod len prompts)) prompts "")
                (wire a)) as (s & Hs & Hts).
    rewrite Hs. cbn [bind]. rewrite IH. cbn [bind].
    exists (s :: samples). split; [reflexivity|].
    cbn [forallb]. now rewrite Hts, Ht.
Qed.

(** C9.  When the health check fails, [run_real_benchmark] returns [None]
    without raising and the workers are never started: the only call made is
    the health request.  When it succeeds (and the prompt list is not empty)
    the workers run and the aggregated run result is returned. *)
Theorem C9_health_gate :
  forall (kind base model : string) (prompts : list string)
         (concurrency duration : Z) (w : world),
    let url := health_url kind base in
    let run := run_real_benchmark kind base model prompts
                 concurrency duration w in
    (session_get w url <> Ok 200 ->
       run = ([SessionGet url], Ok None) /\
       forall n, ~ In (Gather n) (fst run)) /\
    (session_get w url = Ok 200 -> prompts <> [] ->
       exists samples r,
         mapM (worker_body (mkEngine kind base model) prompts)
              (iterations w) = Ok samples /\
         _aggregate_results samples duration = Ok r /\
         run = ([SessionGet url; Gather concurrency], Ok (Some r))).
Proof.
  intros kind base model prompts concurrency duration w url run.
  split.
  - intros Hdown.
    assert (Hrun : run = ([SessionGet url], Ok None)).
    { subst run. unfold run_real_benchmark, health_check.
      cbn [engine base_url].
      fold (health_url kind base). fold url.
      destruct (session_get w url) as [code|e]; [|reflexivity].
      destruct (Z.eqb_spec code 200) as [->|_]; [congruence | reflexivity]. }
    split; [exact Hrun|]. rewrite Hrun. cbn. intros n [H|[]]. discriminate.
  - intros Hup Hp.
    destruct (workers_return (mkEngine kind base model) prompts
                (iterations w) Hp) as (samples & Hm & Ht).
    destruct (aggregate_returns samples duration Ht) as (r & Hr).
    exists samples, r. split; [exact Hm|]. split; [exact Hr|].
    subst run. unfold run_real_benchmark, health_check, run_concurrent_benchmark.
    cbn [engine base_url].
    fold (health_url kind base). fold url.
    rewrite Hup. cbn [Z.eqb Pos.eqb negb]. rewrite Hm. cbn [bind].
    rewrite Hr. reflexivity.
Qed.

Lemma C9_witness :
  run_real_benchmark "llama.cpp" "http://localhost:8080" "llama-3.1-8b"
    ["What is machine learning?"; "Explain Python in simple terms."] 2 10 down
  = ([SessionGet "http://localhost:8080/health"], Ok None)
  /\ exists samples r,
       mapM (worker_body llama ["Hello"])
            (iterations (up [mkAttempt 0 (answered late_content);
                             mkAttempt 1 (refused TimeoutError)])) = Ok samples /\
       _aggregate_results samples 10 = Ok r /\
       run_real_benchmark "llama.cpp" "http://localhost:8080" "llama-3.1-8b"
         ["Hello"] 2 10
         (up [mkAttempt 0 (answered late_content);
              mkAttempt 1 (refused TimeoutError)])
       = ([SessionGet "http://localhost:8080/health"; Gather 2], Ok (Some r)).
Proof.
  split.
  - apply (proj1 (C9_health_gate "llama.cpp" "http://localhost:8080"
                    "llama-3.1-8b"
                    ["What is machine learning?";
                     "Explain Python in simple terms."] 2 10 down)).
    discriminate.
  - apply (proj2 (C9_health_gate "llama.cpp" "http://localhost:8080"
                    "llama-3.1-8b" ["Hello"] 2 10
                    (up [mkAttempt 0 (answered late_content);
                         mkAttempt 1 (refused TimeoutError)])));
      [reflexivity | discriminate].
Defined.

(* ================================================================== *)
(** * Further facts about sorting and percentiles *)
(* ================================================================== *)

Lemma Qle_bool_false (x y : Q) : Qle_bool x y = false -> (y < x)%Q.
Proof.
  intros H. destruct (Qlt_le_dec y x) as [Hlt|Hle]; [exact Hlt|].
  apply Qle_bool_iff in Hle. congruence.
Qed.

Lemma pointwise_refl (l : list Q) : Forall2 Qeq l l.
Proof. induction l; constructor; [reflexivity | assumption]. Qed.

Lemma pointwise_trans (l1 l2 l3 : list Q) :
  Forall2 Qeq l1 l2 -> Forall2 Qeq l2 l3 -> Forall2 Qeq l1 l3.
Proof.
  intros H. revert l3. induction H as [|x y l1 l2 Hxy _ IH]; intros l3 H3.
  - inversion H3. constructor.
  - inversion H3 as [|y' z l2' l3' Hyz Hrest]; subst.
    constructor; [now rewrite Hxy | now apply IH].
Qed.

Lemma pointwise_nth (l l' : list Q) (i : nat) :
  Forall2 Qeq l l' -> (nth i l 0 == nth i l' 0)%Q.
Proof.
  intros H. revert i. induction H as [|x y l l' Hxy _ IH]; intros [|i]; simpl;
    try reflexivity; [exact Hxy | apply IH].
Qed.

(** [insert] respects equality of numbers. *)
Lemma insert_pointwise (x x' : Q) (l l' : list Q) :
  (x == x')%Q -> Forall2 Qeq l l' -> Forall2 Qeq (insert x l) (insert x' l').
Proof.
  intros Hx H. induction H as [|y y' l l' Hy Hl IH]; simpl.
  - constructor; [exact Hx | constructor].
  - rewrite <- (Qleb_comp x x' Hx y y' Hy).
    destruct (Qle_bool x y).
    + constructor; [exact Hx|]. constructor; assumption.
    + constructor; assumption.
Qed.

(** Two insertions commute, up to equality of numbers. *)
Lemma insert_commute (x y : Q) (l : list Q) :
  Forall2 Qeq (insert x (insert y l)) (insert y (insert x l)).
Proof.
  induction l as [|z l IH]; simpl.
  - destruct (Qle_bool x y) eqn:Exy; destruct (Qle_bool y x) eqn:Eyx;
      try apply pointwise_refl.
    + apply Qle_bool_iff in Exy, Eyx.
      assert (x == y)%Q by (apply Qle_antisym; assumption).
      repeat constructor; [assumption | now symmetry].
    + apply Qle_bool_false in Exy, Eyx. exfalso. lra.
  - destruct (Qle_bool y z) eqn:Eyz; destruct (Qle_bool x z) eqn:Exz; simpl;
      rewrite ?Eyz, ?Exz;
      destruct (Qle_bool x y) eqn:Exy; destruct (Qle_bool y x) eqn:Eyx;
      rewrite ?Eyz, ?Exz;
      repeat match goal with
             | H : Qle_bool _ _ = true |- _ => apply Qle_bool_iff in H
             | H : Qle_bool _ _ = false |- _ => apply Qle_bool_false in H
             end;
      try (exfalso; lra);
      try apply pointwise_refl;
      try (constructor; [reflexivity | exact IH]).
    assert (x == y)%Q by (apply Qle_antisym; assumption).
    constructor; [assumption|]. constructor; [now symmetry|].
    apply pointwise_refl.
Qed.

(** Sorting two orderings of the same values gives the same ascending list,
    up to equality of numbers. *)
Lemma sort_order_irrelevant (l l' : list Q) :
  Permutation l l' -> Forall2 Qeq (sort l) (sort l').
Proof.
  induction 1 as [|x l l' _ IH|x y l|l1 l2 l3 _ IH1 _ IH2]; simpl.
  - constructor.
  - apply insert_pointwise; [reflexivity | exact IH].
  - apply insert_commute.
  - eapply pointwise_trans; eassumption.
Qed.

Lemma percentile_pointwise (v v' : list Q) (p : Z) (x x' : Q) :
  Forall2 Qeq v v' -> v <> [] -> 0 <= p <= 100 ->
  percentile v p = Ok x -> percentile v' p = Ok x' -> (x == x')%Q.
Proof.
  intros H Hv Hp Hx Hx'.
  assert (Hv' : v' <> []).
  { intros ->. inversion H. subst. contradiction. }
  assert (Hlen : len v' = len v)
    by (unfold len; now rewrite (Forall2_length H)).
  destruct (percentile_value v p Hv Hp) as [_ E].
  destruct (percentile_value v' p Hv' Hp) as [_ E'].
  rewrite E in Hx. rewrite E' in Hx'. injection Hx as <-. injection Hx' as <-.
  rewrite Hlen.
  rewrite !(pointwise_nth v v' _ H). reflexivity.
Qed.

(** On an ascending list the percentile lies between the first and the last
    value. *)
Lemma percentile_between (v : list Q) (p : Z) (x a b : Q) :
  StronglySorted Qle v -> v <> [] -> 0 <= p <= 100 ->
  (forall t, In t v -> a <= t /\ t <= b)%Q ->
  percentile v p = Ok x -> (a <= x /\ x <= b)%Q.
Proof.
  intros Hs Hv Hp Hab Hx.
  destruct (percentile_value v p Hv Hp) as [Hf E].
  rewrite E in Hx. injection Hx as <-.
  set (n := len v) in *. set (k := (n - 1) * p) in *.
  set (f := k / 100) in *. set (c := Z.min (f + 1) (n - 1)) in *.
  assert (Hk : (inject_Z f <= true_div k 100 /\
                true_div k 100 < inject_Z (f + 1))%Q).
  { subst f. rewrite <- (floor_true_div k 100) by lia.
    split; [apply Qfloor_le | apply Qlt_floor]. }
  rewrite inject_Z_plus in Hk. change (inject_Z 1) with 1%Q in Hk.
  assert (Hin : forall i, 0 <= i <= n - 1 -> In (nth (Z.to_nat i) v 0%Q) v).
  { intros i Hi. apply nth_In. subst n. unfold len in Hi. lia. }
  assert (Hfc : (nth (Z.to_nat f) v 0 <= nth (Z.to_nat c) v 0)%Q).
  { apply sorted_nth; [exact Hs | subst c; lia |].
    subst c n. unfold len in *. lia. }
  destruct (Hab _ (Hin f ltac:(lia))) as [Haf _].
  destruct (Hab _ (Hin c ltac:(subst c; lia))) as [_ Hcb].
  set (lo := nth (Z.to_nat f) v 0%Q) in *.
  set (hi := nth (Z.to_nat c) v 0%Q) in *.
  assert (H0 : (0 <= (true_div k 100 - inject_Z f) * (hi - lo))%Q)
    by (apply Qmult_le_0_compat; lra).
  assert (H1 : ((true_div k 100 - inject_Z f) * (hi - lo) <= 1 * (hi - lo))%Q)
    by (apply Qmult_le_compat_r; lra).
  split; lra.
Qed.

(* ================================================================== *)
(** * Further properties of the aggregator *)
(* ================================================================== *)

Lemma filter_permutation {A : Type} (f : A -> bool) (l l' : list A) :
  Permutation l l' -> Permutation (filter f l) (filter f l').
Proof.
  induction 1 as [|x l l' _ IH|x y l|l1 l2 l3 _ IH1 _ IH2]; simpl.
  - constructor.
  - destruct (f x); [now constructor | exact IH].
  - destruct (f x), (f y); try apply Permutation_refl. apply perm_swap.
  - eapply perm_trans; eassumption.
Qed.

Lemma len_permutation {A : Type} (l l' : list A) :
  Permutation l l' -> len l = len l'.
Proof. intros H. unfold len. now rewrite (Permutation_length H). Qed.

Lemma successful_tokens_permutation (l l' : list Sample) :
  Permutation l l' -> successful_tokens l = successful_tokens l'.
Proof.
  unfold successful_tokens.
  induction 1 as [|x l l' _ IH|x y l|l1 l2 l3 _ IH1 _ IH2]; simpl.
  - reflexivity.
  - now rewrite IH.
  - destruct (success x), (success y); lia.
  - congruence.
Qed.

Lemma timed_permutation (l l' : list Sample) :
  Permutation l l' -> forallb timed l = true -> forallb timed l' = true.
Proof.
  intros H Ht. apply forallb_forall. intros s Hs.
  rewrite forallb_forall in Ht. apply Ht.
  apply (Permutation_in s (Permutation_sym H) Hs).
Qed.

(** The throughput of a returned run result. *)
Lemma throughput_value (results : list Sample) (duration : Z) (r : RunResult) :
  _aggregate_results results duration = Ok r ->
  total_tokens r = successful_tokens results /\
  (tokens_per_sec r ==
   py_round (if duration >? 0
             then true_div (successful_tokens results) duration
             else 0) 1)%Q.
Proof.
  intros Hr. pose proof (aggregate_ok_timed results duration r Hr) as Ht.
  destruct (filter (fun r => success r) results) as [|s0 ss] eqn:E.
  - rewrite (aggregate_no_success results duration E) in Hr.
    injection Hr as <-. cbn [total_tokens tokens_per_sec].
    assert (H0 : successful_tokens results = 0)
      by (rewrite <- sum_successful, E; reflexivity).
    rewrite H0. split; [reflexivity|].
    assert (Hz : ((if duration >? 0 then true_div 0 duration else 0) == 0)%Q).
    { destruct (duration >? 0); [|reflexivity].
      unfold true_div, Qdiv. now rewrite Qmult_0_l. }
    rewrite (py_round_comp _ _ 1 Hz). symmetry. apply py_round_zero.
  - destruct (aggregate_some_success results duration Ht)
      as (x50 & x95 & x99 & _ & _ & _ & _ & Hagg).
    { rewrite E. discriminate. }
    rewrite Hagg in Hr. injection Hr as <-.
    cbn [total_tokens tokens_per_sec]. split; reflexivity.
Qed.

(** X1.  The order of the samples is irrelevant: aggregating any
    rearrangement of a sample sequence gives the same run result (equal
    counts, numerically equal percentiles and rates). *)
Theorem aggregate_order_irrelevant :
  forall (results results' : list Sample) (duration : Z) (r : RunResult),
    Permutation results results' ->
    _aggregate_results results duration = Ok r ->
    exists r', _aggregate_results results' duration = Ok r' /\
               same_result r r'.
Proof.
  intros results results' duration r Hp Hr.
  pose proof (aggregate_ok_timed results duration r Hr) as Ht.
  pose proof (timed_permutation _ _ Hp Ht) as Ht'.
  pose proof (filter_permutation (fun r => success r) _ _ Hp) as Hps.
  pose proof (filter_permutation (fun r => negb (success r)) _ _ Hp) as Hpf.
  destruct (filter (fun r => success r) results) as [|s0 ss] eqn:E.
  - apply Permutation_nil in Hps.
    rewrite (aggregate_no_success results duration E) in Hr.
    injection Hr as <-.
    eexists. split; [apply aggregate_no_success, Hps|].
    unfold same_result. cbn. rewrite (len_permutation _ _ Hp).
    repeat split; reflexivity.
  - assert (Hne : filter (fun r => success r) results <> [])
      by (rewrite E; discriminate).
    assert (Hne' : filter (fun r => success r) results' <> []).
    { intros E'. rewrite E' in Hps. apply Permutation_sym, Permutation_nil in Hps.
      discriminate. }
    destruct (aggregate_some_success results duration Ht Hne)
      as (x50 & x95 & x99 & Hv & H50 & H95 & H99 & Hagg).
    destruct (aggregate_some_success results' duration Ht' Hne')
      as (y50 & y95 & y99 & Hv' & H50' & H95' & H99' & Hagg').
    rewrite Hagg in Hr. injection Hr as <-.
    eexists. split; [exact Hagg'|].
    assert (Hsort : Forall2 Qeq (sort (successful_ttfts results))
                                (sort (successful_ttfts results'))).
    { apply sort_order_irrelevant. unfold successful_ttfts.
      now apply Permutation_flat_map. }
    rewrite <- E in Hps.
    unfold same_result.
    cbn [successful_requests failed_requests total_tokens ttft_p50 ttft_p95
         ttft_p99 tokens_per_sec error_rate].
    rewrite (len_permutation _ _ Hps), (len_permutation _ _ Hpf),
      (len_permutation _ _ Hp), (successful_tokens_permutation _ _ Hp).
    repeat split; try reflexivity; apply py_round_comp.
    + apply (percentile_pointwise _ _ 50 _ _ Hsort Hv); (lia || assumption).
    + apply (percentile_pointwise _ _ 95 _ _ Hsort Hv); (lia || assumption).
    + apply (percentile_pointwise _ _ 99 _ _ Hsort Hv); (lia || assumption).
Qed.

Lemma aggregate_order_irrelevant_witness :
  exists r r', _aggregate_results mixed_run 2 = Ok r /\
    _aggregate_results (rev mixed_run) 2 = Ok r' /\ same_result r r'.
Proof.
  eexists.
  destruct (aggregate_order_irrelevant mixed_run (rev mixed_run) 2 _
              (Permutation_rev mixed_run) eq_refl) as (r' & Hr' & Hsame).
  exists r'. split; [reflexivity|]. split; assumption.
Defined.

(** X2.  The percentiles never leave the range of the measurements: when
    every successful [ttft] lies between [a] and [b], the three percentiles
    of the run result lie between [round(a, 3)] and [round(b, 3)]; in
    particular, equal measurements give three equal percentiles. *)
Theorem percentiles_within_range :
  forall (results : list Sample) (duration : Z) (r : RunResult) (a b : Q),
    _aggregate_results results duration = Ok r ->
    filter (fun r => success r) results <> [] ->
    (forall t, In t (successful_ttfts results) -> a <= t /\ t <= b)%Q ->
    (py_round a 3 <= ttft_p50 r /\ ttft_p50 r <= py_round b 3)%Q /\
    (py_round a 3 <= ttft_p95 r /\ ttft_p95 r <= py_round b 3)%Q /\
    (py_round a 3 <= ttft_p99 r /\ ttft_p99 r <= py_round b 3)%Q.
Proof.
  intros results duration r a b Hr Hne Hab.
  pose proof (aggregate_ok_timed results duration r Hr) as Ht.
  destruct (aggregate_some_success results duration Ht Hne)
    as (x50 & x95 & x99 & Hv & H50 & H95 & H99 & Hagg).
  rewrite Hagg in Hr. injection Hr as <-.
  pose proof (sort_sorted (successful_ttfts results)) as Hs.
  assert (Hab' : (forall t, In t (sort (successful_ttfts results)) ->
                            a <= t /\ t <= b)%Q).
  { intros t Hin. apply Hab.
    apply (Permutation_in t (Permutation_sym (sort_perm _)) Hin). }
  cbn [ttft_p50 ttft_p95 ttft_p99].
  destruct (percentile_between _ 50 x50 a b Hs Hv ltac:(lia) Hab' H50).
  destruct (percentile_between _ 95 x95 a b Hs Hv ltac:(lia) Hab' H95).
  destruct (percentile_between _ 99 x99 a b Hs Hv ltac:(lia) Hab' H99).
  repeat split; now apply py_round_mono.
Qed.

Lemma percentiles_within_range_witness :
  exists r, _aggregate_results mixed_run 2 = Ok r /\
    (1 # 10 <= ttft_p50 r)%Q /\ (ttft_p99 r <= 5 # 10)%Q.
Proof.
  eexists. split; [reflexivity|].
  destruct (percentiles_within_range mixed_run 2 _ (1 # 10) (5 # 10) eq_refl)
    as ((Hlo & _) & _ & (_ & Hhi)).
  - discriminate.
  - intros t Ht. simpl in Ht.
    repeat (destruct Ht as [<-|Ht]; [split; discriminate|]). contradiction.
  - split; [exact Hlo | exact Hhi].
Defined.





(** X4.  A configured duration that is not positive never divides: on
    every sequence of timed samples the aggregator returns a run result, whose throughput is 0 while the token total is
    still reported, although dividing the total by a duration of zero raises
    [ZeroDivisionError]. *)
Theorem nonpositive_duration_zero_throughput :
  forall (results : list Sample) (duration : Z),
    duration <= 0 ->
    forallb timed results = true ->
    exists r, _aggregate_results64 results duration = Ok r /\
      (tokens_per_sec r == 0)%Q /\
      total_tokens r = successful_tokens results /\
      py_truediv (total_tokens r) 0 = Raise (Exception "division by zero").
Proof.
  intros results duration Hd Ht.
  destruct (aggregate64_returns results duration Ht) as (r & Hr).
  exists r. split; [exact Hr|].
  destruct (throughput64_value results duration r Hr)
    as (_ & _ & Htot & Htps).
  split; [|split; [exact Htot | reflexivity]].
  rewrite Htps. destruct (Z.gtb_spec duration 0); [lia|].
  rewrite py_round64_zero. reflexivity.
Qed.

Lemma nonpositive_duration_zero_throughput_witness :
  exists r, _aggregate_results64 mixed_run 0 = Ok r /\
    (tokens_per_sec r == 0)%Q /\ total_tokens r = 81.
Proof.
  destruct (nonpositive_duration_zero_throughput mixed_run 0)
    as (r & Hr & Htps & Htot & _).
  - lia.
  - reflexivity.
  - exists r. split; [exact Hr|]. split; [exact Htps | exact Htot].
Defined.

(** X5.  For a fixed positive duration the throughput is monotone in the
    token total of the successful samples. *)
Theorem throughput_monotone :
  forall (results results' : list Sample) (duration : Z) (r r' : RunResult),
    0 < duration ->
    _aggregate_results results duration = Ok r ->
    _aggregate_results results' duration = Ok r' ->
    successful_tokens results <= successful_tokens results' ->
    (tokens_per_sec r <= tokens_per_sec r')%Q.
Proof.
  intros results results' duration r r' Hd Hr Hr' Hle.
  destruct (throughput_value results duration r Hr) as [_ ->].
  destruct (throughput_value results' duration r' Hr') as [_ ->].
  destruct (Z.gtb_spec duration 0); [|lia].
  apply py_round_mono, true_div_mono; assumption.
Qed.

Lemma throughput_monotone_witness :
  exists r r', _aggregate_results [timed_out] 2 = Ok r /\
    _aggregate_results mixed_run 2 = Ok r' /\
    (tokens_per_sec r <= tokens_per_sec r')%Q.
Proof.
  do 2 eexists. split; [reflexivity|]. split; [reflexivity|].
  apply (throughput_monotone [timed_out] mixed_run 2 _ _);
    [lia | reflexivity | reflexivity | discriminate].
Defined.

Lemma alike_lists (results results' : list Sample) :
  Forall2 alike results results' ->
  map ttft (filter (fun r => success r) results)
  = map ttft (filter (fun r => success r) results') /\
  map tokens (filter (fun r => success r) results)
  = map tokens (filter (fun r => success r) results') /\
  List.length (filter (fun r => negb (success r)) results)
  = List.length (filter (fun r => negb (success r)) results').
Proof.
  induction 1 as [|s s' l l' [Hs Hf] _ (IH1 & IH2 & IH3)]; [now repeat split|].
  cbn [filter]. rewrite <- Hs.
  destruct (success s); cbn [negb map List.length].
  - destruct (Hf eq_refl) as [-> ->]. now rewrite IH1, IH2, IH3.
  - now rewrite IH1, IH2, IH3.
Qed.

(** X6.  The aggregator reads only the outcome of each sample and, for a
    success, its [ttft] and token count: sequences that agree on these give
    the same result, whatever their [total_time] and [error] fields (and the
    [ttft] and token count of failures) are.  No measured request time enters
    the statistics. *)
Theorem aggregate_reads_only :
  forall (results results' : list Sample) (duration : Z),
    Forall2 alike results results' ->
    _aggregate_results results duration = _aggregate_results results' duration.
Proof.
  intros results results' duration H.
  destruct (alike_lists _ _ H) as (Httft & Htok & Hfail).
  assert (Hfail' : len (filter (fun r => negb (success r)) results)
                   = len (filter (fun r => negb (success r)) results'))
    by (unfold len; now rewrite Hfail).
  assert (Hlen : len results = len results')
    by (unfold len; now rewrite (Forall2_length H)).
  destruct results as [|r0 rs]; destruct results' as [|r0' rs'];
    try (now inversion H); try reflexivity.
  unfold _aggregate_results. rewrite Hfail', Hlen. cbv iota.
  destruct (filter (fun r => success r) (r0 :: rs)) as [|s0 ss] eqn:E;
    destruct (filter (fun r => success r) (r0' :: rs')) as [|s0' ss'] eqn:E';
    try discriminate; try reflexivity.
  assert (Hl : len (s0 :: ss) = len (s0' :: ss')).
  { unfold len. f_equal.
    rewrite <- (length_map ttft (s0 :: ss)), Httft. apply length_map. }
  now rewrite Httft, Htok, Hl.
Qed.

Lemma aggregate_reads_only_witness :
  _aggregate_results [succeeded (1 # 10) 7; timed_out] 2
  = _aggregate_results
      [{| ttft := Some (1 # 10); total_time := 99; tokens := 7;
          success := true; error := Some "ignored" |};
       {| ttft := Some 5%Q; total_time := 0; tokens := 1000;
          success := false; error := None |}] 2.
Proof.
  apply aggregate_reads_only.
  repeat constructor; cbn; discriminate.
Defined.

(* ================================================================== *)
(** * Further properties of the prober *)
(* ================================================================== *)

Lemma prefix_append (s t : string) : prefix s (s ++ t) = true.
Proof.
  induction s as [|c s IH]; simpl.
  - now destruct t.
  - destruct (ascii_dec c c); [exact IH | contradiction].
Qed.

Lemma build_ok_known (self : RealBenchmarkEngine) (prompt url : string)
  (payload : json) :
  _build_request self prompt = Ok (url, payload) -> known self = true.
Proof.
  unfold _build_request, known.
  destruct (String.eqb (engine self) "llama.cpp"); [reflexivity|].
  destruct (String.eqb (engine self) "ollama"); [reflexivity|].
  destruct (String.eqb (engine self) "vllm"); [reflexivity | discriminate].
Qed.

Lemma build_unknown_raises (self : RealBenchmarkEngine) (prompt : string) :
  known self = false ->
  _build_request self prompt
  = Raise (Exception ("Unknown engine: " ++ engine self)).
Proof.
  unfold _build_request, known. intros H.
  apply orb_false_iff in H as [H E3]. apply orb_false_iff in H as [E1 E2].
  now rewrite E1, E2, E3.
Qed.

(** X7.  [_build_request] succeeds exactly for the three known engine kinds.
    The URL then extends the base URL, the payload carries the prompt
    unchanged, and it asks for a streamed reply exactly when the prober reads
    the body as a stream; any other kind raises the "Unknown engine"
    error. *)
Theorem build_request_contract :
  forall (self : RealBenchmarkEngine) (prompt : string),
    match _build_request self prompt with
    | Ok (url, payload) =>
        known self = true /\
        prefix (base_url self) url = true /\
        py_get payload "prompt" JNull = Ok (JStr prompt) /\
        py_get payload "stream" (JBool false) = Ok (JBool (streaming self))
    | Raise e =>
        known self = false /\
        e = Exception ("Unknown engine: " ++ engine self)
    end.
Proof.
  intros self prompt. unfold _build_request, known, streaming.
  destruct (String.eqb (engine self) "llama.cpp") eqn:E1.
  - repeat split. apply prefix_append.
  - destruct (String.eqb (engine self) "ollama") eqn:E2.
    + repeat split. apply prefix_append.
    + destruct (String.eqb (engine self) "vllm") eqn:E3.
      * repeat split. apply prefix_append.
      * repeat split.
Qed.

Lemma unknown_engine_failure (self : RealBenchmarkEngine) (prompt : string)
  (x : exchange) :
  known self = false ->
  measure_single_request self prompt x
  = Ok (failure x ("Unknown engine: " ++ engine self)).
Proof.
  intros Hk.
  apply (measure_raises self prompt x
           (Exception ("Unknown engine: " ++ engine self))).
  left. now apply build_unknown_raises.
Qed.

(** X8.  An unknown engine kind never reaches the network: the sample is the
    failure that carries the "Unknown engine" message, and it is the same
    whatever the server would have answered (only the two clock readings
    enter it). *)
Theorem unknown_engine_no_request :
  forall (self : RealBenchmarkEngine) (prompt : string) (x x' : exchange),
    known self = false ->
    start_time x' = start_time x -> end_time x' = end_time x ->
    measure_single_request self prompt x
    = Ok (failure x ("Unknown engine: " ++ engine self)) /\
    measure_single_request self prompt x' = measure_single_request self prompt x.
Proof.
  intros self prompt x x' Hk Hs He.
  rewrite (unknown_engine_failure self prompt x Hk),
    (unknown_engine_failure self prompt x' Hk).
  split; [reflexivity|]. unfold failure. now rewrite Hs, He.
Qed.

Lemma unknown_engine_no_request_witness :
  measure_single_request (mkEngine "tgi" "http://localhost:8000" "m") "Hello"
    (answered late_content)
  = measure_single_request (mkEngine "tgi" "http://localhost:8000" "m") "Hello"
      (answered server_error).
Proof.
  apply (unknown_engine_no_request
           (mkEngine "tgi" "http://localhost:8000" "m") "Hello"
           (answered server_error) (answered late_content));
    reflexivity.
Defined.

(** X9.  Every sample of the prober is well formed.  [total_time] is the
    time between the two clock readings; a success has no error, a [ttft] and
    at least one token; a failure has an error message, no [ttft] and no
    token. *)
Theorem sample_well_formed :
  forall (self : RealBenchmarkEngine) (prompt : string) (x : exchange),
    exists s, measure_single_request self prompt x = Ok s /\
      total_time s = (end_time x - start_time x)%Q /\
      if success s
      then error s = None /\ (exists t, ttft s = Some t) /\ 1 <= tokens s
      else (exists msg, error s = Some msg) /\ ttft s = None /\ tokens s = 0.
Proof.
  intros self prompt x.
  assert (Hfail : forall e, request_raises self prompt x e ->
            exists s, measure_single_request self prompt x = Ok s /\
              total_time s = (end_time x - start_time x)%Q /\
              if success s
              then error s = None /\ (exists t, ttft s = Some t) /\
                   1 <= tokens s
              else (exists msg, error s = Some msg) /\ ttft s = None /\
                   tokens s = 0).
  { intros e He. eexists. split; [apply measure_raises, He|].
    cbn. repeat split. eexists. reflexivity. }
  destruct (_build_request self prompt) as [[url payload]|e] eqn:Hb;
    [|apply (Hfail e); now left].
  destruct (post x url payload) as [r|e] eqn:Hp;
    [|apply (Hfail e); right; exists url, payload; split; [exact Hb | now left]].
  destruct (Z.eq_dec (status r) 200) as [Hs|Hs].
  - destruct (read_response self (start_time x) r (None, 0))
      as [[seen n]|e] eqn:Hr.
    + eexists. split; [eapply measure_success; eassumption|].
      cbn. repeat split.
      * eexists. reflexivity.
      * destruct (Z.gtb_spec n 0); lia.
    + apply (Hfail e). right. exists url, payload. split; [exact Hb|].
      right. now exists r.
  - eexists. split; [eapply measure_http_error; eassumption|].
    cbn. repeat split. eexists. reflexivity.
Qed.

(** What the body of a 200 response leaves in [ttft]: the arrival of the
    first line for a streaming engine, the return of [response.json()] for
    vllm. *)
Lemma read_response_seen (self : RealBenchmarkEngine) (start : Q)
  (r : response) (seen : option Q) (n : Z) :
  known self = true ->
  read_response self start r (None, 0) = Ok (seen, n) ->
  seen = (if streaming self
          then match content r with
               | [] => None
               | (now, _) :: _ => Some (now - start)%Q
               end
          else Some (json_time r - start)%Q).
Proof.
  intros Hk Hr. destruct (streaming self) eqn:Hst.
  - rewrite read_response_streaming in Hr by exact Hst.
    destruct (content_error r) as [e|].
    + now rewrite async_for_breaks in Hr.
    + rewrite async_for_stream in Hr. now injection Hr as <- _.
  - unfold streaming in Hst. apply orb_false_iff in Hst as [E1 E2].
    unfold known in Hk. rewrite E1, E2 in Hk. cbn in Hk.
    unfold read_response in Hr. rewrite E1, E2, Hk in Hr.
    unfold vllm_body in Hr.
    destruct (json_body r) as [data|]; [|discriminate]. cbn [bind] in Hr.
    destruct (py_contains "choices" data) as [[|]|]; cbn [bind] in Hr;
      [| now injection Hr as <- _ | discriminate].
    destruct (py_getitem data (KStr "choices")); [|discriminate].
    cbn [bind] in Hr.
    destruct (py_getitem a (KInt 0)); [|discriminate]. cbn [bind] in Hr.
    destruct (py_get a0 "text" (JStr "")); [|discriminate]. cbn [bind] in Hr.
    destruct (py_split a1); [|discriminate]. cbn [bind] in Hr.
    now injection Hr as <- _.
Qed.

(** X10.  When the clock readings of a request are in order, the [ttft] of a
    successful sample lies between 0 and its [total_time]. *)
Theorem ttft_within_total_time :
  forall (self : RealBenchmarkEngine) (prompt : string) (x : exchange)
         (url : string) (payload : json) (r : response) (s : Sample),
    _build_request self prompt = Ok (url, payload) ->
    post x url payload = Ok r -> in_order x r ->
    measure_single_request self prompt x = Ok s -> success s = true ->
    exists t, ttft s = Some t /\ (0 <= t /\ t <= total_time s)%Q.
Proof.
  intros self prompt x url payload r s Hb Hp (Hse & Hlines & Hj) Hm Hok.
  assert (Hk : known self = true).
  { exact (build_ok_known self prompt url payload Hb). }
  destruct (Z.eq_dec (status r) 200) as [Hs|Hs].
  2:{ rewrite (measure_http_error self prompt x url payload r Hb Hp Hs) in Hm.
      injection Hm as <-. discriminate. }
  destruct (read_response self (start_time x) r (None, 0))
    as [[seen n]|e] eqn:Hr.
  2:{ rewrite (measure_raises self prompt x e) in Hm.
      - injection Hm as <-. discriminate.
      - right. exists url, payload. split; [exact Hb|]. right. now exists r. }
  rewrite (measure_success self prompt x url payload r seen n Hb Hp Hs Hr) in Hm.
  injection Hm as <-. cbn [ttft total_time].
  eexists. split; [reflexivity|].
  rewrite (read_response_seen self _ r seen n Hk Hr).
  destruct (streaming self).
  - destruct (content r) as [|[now l] rest]; [lra|].
    inversion Hlines as [|? ? [H1 H2] _]; subst. cbn [fst] in *. lra.
  - lra.
Qed.

Lemma ttft_within_total_time_witness :
  exists t, (t == 1)%Q /\ (0 <= t /\ t <= 4 - 0)%Q.
Proof.
  destruct (ttft_within_total_time llama "Hello" (answered late_content)
              "http://localhost:8080/completion"
              (JObj [("prompt", JStr "Hello"); ("n_predict", JInt 512);
                     ("temperature", JFloat (7 # 10)); ("stream", JBool true)])
              late_content
              {| ttft := Some (1 - 0)%Q; total_time := 4 - 0; tokens := 1;
                 success := true; error := None |})
    as (t & Ht & Hbounds).
  - reflexivity.
  - reflexivity.
  - split; [discriminate|]. split.
    + repeat constructor; discriminate.
    + split; discriminate.
  - reflexivity.
  - reflexivity.
  - exists t. split; [|exact Hbounds].
    cbn in Ht. injection Ht as <-. reflexivity.
Defined.

(** X11.  A stream that breaks loses what was read: when the iteration over
    the body of a streaming 200 response raises, the sample is a failure with
    no [ttft] and no token, however many lines arrived before. *)
Theorem broken_stream_discards :
  forall (self : RealBenchmarkEngine) (prompt : string) (x : exchange)
         (url : string) (payload : json) (r : response) (e : exn),
    streaming self = true ->
    _build_request self prompt = Ok (url, payload) ->
    post x url payload = Ok r -> status r = 200 ->
    content_error r = Some e ->
    measure_single_request self prompt x = Ok (failure x (message e)).
Proof.
  intros self prompt x url payload r e Hst Hb Hp Hs He.
  rewrite (measure_raises self prompt x e); [reflexivity|].
  right. exists url, payload. split; [exact Hb|]. right. exists r.
  split; [exact Hp|]. split; [exact Hs|].
  now apply stream_break_raises.
Qed.

Lemma broken_stream_discards_witness :
  measure_single_request llama "Hello" (answered interrupted)
  = Ok (failure (answered interrupted) "Timeout")
  /\ stream_events llama (content interrupted) = 1.
Proof.
  split; [|reflexivity].
  apply (broken_stream_discards llama "Hello" (answered interrupted)
           "http://localhost:8080/completion"
           (JObj [("prompt", JStr "Hello"); ("n_predict", JInt 512);
                  ("temperature", JFloat (7 # 10)); ("stream", JBool true)])
           interrupted TimeoutError); reflexivity.
Defined.

Lemma llama_line_events (self : RealBenchmarkEngine) (l : line) :
  engine self = "llama.cpp" ->
  line_events self l = if passes_key_test "content" l then 1 else 0.
Proof.
  intros He. unfold line_events, loop_body, passes_key_test. rewrite He.
  cbn [String.eqb Ascii.eqb Bool.eqb]. unfold llama_cpp_body.
  destruct l as [| |data]; cbn; try reflexivity.
  destruct (py_contains "content" data) as [[|]|]; reflexivity.
Qed.

Lemma ollama_line_events (self : RealBenchmarkEngine) (l : line) :
  engine self = "ollama" -> line_events self l = response_words l.
Proof.
  intros He. unfold line_events, loop_body, response_words. rewrite He.
  cbn [String.eqb Ascii.eqb Bool.eqb]. unfold ollama_body.
  destruct l as [| |data]; cbn; try reflexivity.
  destruct data; cbn; try reflexivity.
  - destruct (is_substring "response" s); reflexivity.
  - destruct (existsb (str_eq "response") xs); reflexivity.
  - unfold has_key, dict_get.
    destruct (lookup "response" kvs) as [v|]; cbn; [|reflexivity].
    destruct v; reflexivity.
Qed.

(** X12.  What a stream counts.  For a 200 response whose body closes
    normally, the llama.cpp loop counts one token per line that passes its
    key test, whatever text the line carries, and the ollama loop counts the
    words of the [response] strings; the sample reports that count, or 50
    when it is zero, with the arrival of the first line as [ttft]. *)
Theorem stream_token_count :
  forall (self : RealBenchmarkEngine) (prompt : string) (x : exchange)
         (url : string) (payload : json) (r : response),
    _build_request self prompt = Ok (url, payload) ->
    post x url payload = Ok r -> status r = 200 -> content_error r = None ->
    (engine self = "llama.cpp" ->
       measure_single_request self prompt x
       = Ok (completed x (first_line_ttft x (content r))
                       (len (content_lines (content r))))) /\
    (engine self = "ollama" ->
       measure_single_request self prompt x
       = Ok (completed x (first_line_ttft x (content r))
                       (response_word_total (content r)))).
Proof.
  intros self prompt x url payload r Hb Hp Hs Hc.
  assert (Hgen : streaming self = true ->
            measure_single_request self prompt x
            = Ok (completed x (first_line_ttft x (content r))
                            (stream_events self (content r)))).
  { intros Hst.
    rewrite (measure_success self prompt x url payload r
               (match content r with
                | [] => None
                | (now, _) :: _ => Some (now - start_time x)%Q
                end) (stream_events self (content r)) Hb Hp Hs).
    - unfold completed, first_line_ttft, reported.
      now destruct (content r) as [|[now l] rest].
    - rewrite read_response_streaming by exact Hst.
      rewrite Hc. apply async_for_stream. }
  split; intros He.
  - rewrite Hgen by (unfold streaming; now rewrite He).
    do 2 f_equal. unfold content_lines. clear Hgen.
    induction (content r) as [|item lines IH]; [reflexivity|].
    cbn [stream_events fold_right filter]. fold (stream_events self lines).
    rewrite IH, (llama_line_events self _ He).
    destruct (passes_key_test "content" (snd item)); [|reflexivity].
    rewrite len_cons. lia.
  - rewrite Hgen by (unfold streaming; rewrite He; reflexivity).
    do 2 f_equal. unfold response_word_total. clear Hgen.
    induction (content r) as [|item lines IH]; [reflexivity|].
    cbn [stream_events fold_right]. fold (stream_events self lines).
    now rewrite IH, (ollama_line_events self _ He).
Qed.

Lemma stream_token_count_witness :
  measure_single_request llama "Hello" (answered late_content)
  = Ok (completed (answered late_content) (1 - 0) 1).
Proof.
  apply (proj1 (stream_token_count llama "Hello" (answered late_content)
                  "http://localhost:8080/completion"
                  (JObj [("prompt", JStr "Hello"); ("n_predict", JInt 512);
                         ("temperature", JFloat (7 # 10));
                         ("stream", JBool true)])
                  late_content eq_refl eq_refl eq_refl eq_refl)).
  reflexivity.
Defined.

(** X13.  What a vllm reply counts.  For a 200 reply that decodes to a JSON
    object: without a [choices] field the request succeeds with the fallback
    50 tokens; with a list of choices whose first element is an object, only
    that element is read and the words of its [text] string (default: the
    empty string) are counted; an empty list of choices, or anything else
    under [choices] or [text], makes the request fail.  The [ttft] of a
    success is the time at which the reply was decoded. *)
Theorem vllm_reply_tokens :
  forall (self : RealBenchmarkEngine) (prompt : string) (x : exchange)
         (url : string) (payload : json) (r : response)
         (kvs : list (string * json)),
    engine self = "vllm" ->
    _build_request self prompt = Ok (url, payload) ->
    post x url payload = Ok r -> status r = 200 ->
    json_body r = Ok (JObj kvs) ->
    let decoded := (json_time r - start_time x)%Q in
    match lookup "choices" kvs with
    | None =>
        measure_single_request self prompt x = Ok (completed x decoded 0)
    | Some (JArr []) =>
        measure_single_request self prompt x
        = Ok (failure x "list index out of range")
    | Some (JArr (JObj first :: _)) =>
        match dict_get first "text" (JStr "") with
        | JStr text =>
            measure_single_request self prompt x
            = Ok (completed x decoded (len (split text)))
        | _ => exists msg,
            measure_single_request self prompt x = Ok (failure x msg)
        end
    | Some _ => exists msg,
        measure_single_request self prompt x = Ok (failure x msg)
    end.
Proof.
  intros self prompt x url payload r kvs He Hb Hp Hs Hj decoded.
  assert (Hread : forall st,
            read_response self (start_time x) r st = vllm_body (start_time x) r st).
  { intros st. unfold read_response. now rewrite He. }
  assert (Hok : forall n,
            vllm_body (start_time x) r (None, 0) = Ok (Some decoded, n) ->
            measure_single_request self prompt x = Ok (completed x decoded n)).
  { intros n H. rewrite <- Hread in H.
    now rewrite (measure_success self prompt x url payload r _ _ Hb Hp Hs H). }
  assert (Hbad : forall msg,
            vllm_body (start_time x) r (None, 0) = Raise (Exception msg) ->
            measure_single_request self prompt x = Ok (failure x msg)).
  { intros msg H. rewrite <- Hread in H.
    apply (measure_raises self prompt x (Exception msg)).
    right. exists url, payload. split; [exact Hb|]. right. now exists r. }
  unfold vllm_body in Hok, Hbad. rewrite Hj in Hok, Hbad.
  cbn [bind py_contains py_getitem] in Hok, Hbad.
  unfold has_key in Hok, Hbad.
  destruct (lookup "choices" kvs) as [choices|] eqn:El; cbn [bind] in Hok, Hbad.
  2:{ apply Hok. reflexivity. }
  destruct choices as [| | | | |xs|]; cbn in Hbad;
    try (eexists; apply Hbad; reflexivity).
  - destruct (py_index (list_ascii_of_string s) 0);
      eexists; apply Hbad; reflexivity.
  - destruct xs as [|first rest]; [apply Hbad; reflexivity|].
    cbn in Hok, Hbad.
    destruct first; cbn in Hok, Hbad;
      try (eexists; apply Hbad; reflexivity).
    destruct (dict_get kvs0 "text" (JStr "")); cbn in Hok, Hbad;
      try (eexists; apply Hbad; reflexivity).
    apply Hok. reflexivity.
Qed.

Lemma vllm_reply_tokens_witness :
  measure_single_request vllm "Hello"
    (answered (vllm_reply (JObj [("error", JStr "model not loaded")]) 3))
  = Ok (completed
          (answered (vllm_reply (JObj [("error", JStr "model not loaded")]) 3))
          (3 - 0) 0).
Proof.
  apply (vllm_reply_tokens vllm "Hello"
           (answered (vllm_reply (JObj [("error", JStr "model not loaded")]) 3))
           "http://localhost:8000/v1/completions"
           (JObj [("model", JStr "llama-3.1-8b"); ("prompt", JStr "Hello");
                  ("max_tokens", JInt 512); ("temperature", JFloat (7 # 10))])
           (vllm_reply (JObj [("error", JStr "model not loaded")]) 3)
           [("error", JStr "model not loaded")]); reflexivity.
Defined.

(* ================================================================== *)
(** * Properties of the worker loop *)
(* ================================================================== *)

Lemma worker_body_returns (self : RealBenchmarkEngine) (prompts : list string)
  (a : attempt) :
  prompts <> [] ->
  exists s, worker_body self prompts a = Ok s /\ timed s = true /\
    measure_single_request self
      (nth (Z.to_nat (prompt_idx a mod len prompts)) prompts "") (wire a) = Ok s.
Proof.
  intros Hp.
  assert (Hlen : 0 < len prompts).
  { destruct prompts; [contradiction|]. rewrite len_cons.
    pose proof (len_nonneg prompts). lia. }
  unfold worker_body, py_mod.
  destruct (Z.eqb_spec (len prompts) 0); [lia|]. cbn [bind].
  rewrite (py_index_nth prompts _ "") by (apply Z.mod_pos_bound; exact Hlen).
  cbn [bind].
  destruct (measure_returns self
              (nth (Z.to_nat (prompt_idx a mod len prompts)) prompts "")
              (wire a)) as (s & Hs & Ht).
  exists s. now rewrite Hs.
Qed.

(** The loop performs exactly the iterations before the first reading that
    fails the deadline test, numbered from [idx]. *)
Lemma worker_refines (self : RealBenchmarkEngine) (prompts : list string)
  (start : Q) (duration : Z) (trace : list tick) :
  forall (idx : Z) (res : result (list Sample)),
    worker self prompts start duration idx trace = Some res ->
    res = mapM (worker_body self prompts)
               (numbered idx (passing start duration trace)).
Proof.
  induction trace as [|t rest IH]; intros idx res H; [discriminate|].
  cbn [worker passing] in *.
  destruct (before_deadline start duration t); [|now injection H as <-].
  cbn [numbered mapM].
  destruct (worker_body self prompts (mkAttempt idx (played t))) as [s|e];
    cbn [bind]; [|now injection H as <-].
  destruct (worker self prompts start duration (idx + 1) rest) as [res'|] eqn:E;
    [|discriminate].
  rewrite <- (IH (idx + 1) res' E).
  destruct res'; now injection H as <-.
Qed.

Lemma worker_returns (self : RealBenchmarkEngine) (prompts : list string)
  (start : Q) (duration : Z) (trace : list tick) :
  prompts <> [] -> expires start duration trace = true ->
  forall idx, exists samples,
    worker self prompts start duration idx trace = Some (Ok samples).
Proof.
  intros Hp. induction trace as [|t rest IH]; intros He idx; [discriminate|].
  cbn [worker]. unfold expires in He. cbn [existsb] in He.
  destruct (before_deadline start duration t); [|now exists []].
  cbn [negb orb] in He.
  destruct (worker_body_returns self prompts (mkAttempt idx (played t)) Hp)
    as (s & Hs & _).
  rewrite Hs. destruct (IH He (idx + 1)) as (samples & ->).
  now exists (s :: samples).
Qed.

Lemma mapM_nth (self : RealBenchmarkEngine) (prompts : list string)
  (ticks : list tick) :
  prompts <> [] ->
  forall (idx : Z) (samples : list Sample),
    mapM (worker_body self prompts) (numbered idx ticks) = Ok samples ->
    List.length samples = List.length ticks /\
    forall (i : nat) (t : tick),
      nth_error ticks i = Some t ->
      exists s, nth_error samples i = Some s /\
        measure_single_request self
          (nth (Z.to_nat ((idx + Z.of_nat i) mod len prompts)) prompts "")
          (played t) = Ok s.
Proof.
  intros Hp. induction ticks as [|t rest IH]; intros idx samples H.
  - injection H as <-. split; [reflexivity|]. intros [|i] t0; discriminate.
  - cbn [numbered mapM] in H.
    destruct (worker_body_returns self prompts (mkAttempt idx (played t)) Hp)
      as (s & Hs & _ & Hm). rewrite Hs in H. cbn [bind] in H.
    destruct (mapM (worker_body self prompts) (numbered (idx + 1) rest))
      as [more|] eqn:E; [|discriminate].
    injection H as <-. destruct (IH (idx + 1) more E) as [Hlen Hnth].
    split; [simpl; now rewrite Hlen|].
    intros [|i] t0 Ht0.
    + injection Ht0 as <-. exists s. split; [reflexivity|].
      cbn [prompt_idx wire] in Hm. now rewrite Z.add_0_r.
    + destruct (Hnth i t0 Ht0) as (s0 & Hs0 & Hm0).
      exists s0. split; [exact Hs0|].
      replace (idx + Z.of_nat (S i)) with (idx + 1 + Z.of_nat i) by lia.
      exact Hm0.
Qed.

(** X14.  A worker checks the deadline at the top of its loop only, and
    cycles through the prompts.  With a non-empty prompt list and a clock
    that passes the deadline at some reading, the worker returns; it has
    sent exactly one request per reading before the first one past the
    deadline, none after it, and its [i]-th request carried the prompt
    number [i mod len(prompts)]. *)
Theorem worker_deadline_and_rotation :
  forall (self : RealBenchmarkEngine) (prompts : list string) (start : Q)
         (duration : Z) (trace : list tick),
    prompts <> [] -> expires start duration trace = true ->
    exists samples,
      worker self prompts start duration 0 trace = Some (Ok samples) /\
      List.length samples = List.length (passing start duration trace) /\
      forall (i : nat) (t : tick),
        nth_error (passing start duration trace) i = Some t ->
        exists s, nth_error samples i = Some s /\
          measure_single_request self
            (nth (Z.to_nat (Z.of_nat i mod len prompts)) prompts "")
            (played t) = Ok s.
Proof.
  intros self prompts start duration trace Hp He.
  destruct (worker_returns self prompts start duration trace Hp He 0)
    as (samples & Hw).
  exists samples. split; [exact Hw|].
  pose proof (worker_refines self prompts start duration trace 0 _ Hw) as Hr.
  symmetry in Hr.
  exact (mapM_nth self prompts _ Hp 0 samples Hr).
Qed.

Lemma worker_deadline_and_rotation_witness :
  exists samples,
    worker llama ["first"; "second"] 0 10 0 three_ticks = Some (Ok samples) /\
    List.length samples = 2%nat.
Proof.
  destruct (worker_deadline_and_rotation llama ["first"; "second"] 0 10
              three_ticks) as (samples & Hw & Hlen & _).
  - discriminate.
  - reflexivity.
  - exists samples. split; [exact Hw | exact Hlen].
Defined.

(** X15.  An empty prompt list makes the run raise: as soon as the first
    worker passes its first deadline test, the modulo by [len(prompts)]
    raises [ZeroDivisionError], which [asyncio.gather] passes on. *)
Theorem empty_prompts_raise :
  forall (self : RealBenchmarkEngine) (concurrency duration : Z) (start : Q)
         (traces : nat -> list tick) (t : tick) (rest : list tick),
    0 < concurrency -> traces 0%nat = t :: rest ->
    before_deadline start duration t = true ->
    run_concurrent_benchmark_traced self [] concurrency duration start traces
    = Some (Raise (Exception "integer modulo by zero")).
Proof.
  intros self concurrency duration start traces t rest Hc Ht Hb.
  unfold run_concurrent_benchmark_traced.
  destruct (Z.to_nat concurrency) as [|n] eqn:En; [lia|].
  cbn [seq map]. rewrite Ht. cbn [worker]. rewrite Hb. reflexivity.
Qed.

Lemma empty_prompts_raise_witness :
  run_concurrent_benchmark_traced llama [] 2 10 0 (fun _ => three_ticks)
  = Some (Raise (Exception "integer modulo by zero")).
Proof.
  apply (empty_prompts_raise llama 2 10 0 (fun _ => three_ticks)
           (mkTick 1 {| start_time := 1;
                        post := fun _ _ =>
                          Ok (streamed [(2%Q, Json (JObj [("content", JStr "Hi")]))]);
                        end_time := 2 |})
           (tl three_ticks)); reflexivity.
Defined.

Lemma gather_nothing (runs : list (option (result (list Sample)))) :
  Forall (fun run => run = Some (Ok [])) runs -> gather runs = Some (Ok []).
Proof.
  induction 1 as [|run runs -> _ IH]; [reflexivity|].
  cbn [gather]. now rewrite IH.
Qed.

(** X16.  A run that has no time sends no request: when the configured
    duration is not positive (and the clock does not run backwards), or when
    there is no worker, the run returns the result without samples, all
    counts and rates zero and [error_rate = 1]. *)
Theorem no_time_no_requests :
  forall (self : RealBenchmarkEngine) (prompts : list string)
         (concurrency duration : Z) (start : Q) (traces : nat -> list tick),
    concurrency <= 0 \/
    (duration <= 0 /\
     forall i, exists t rest, traces i = t :: rest /\ (start <= clock t)%Q) ->
    run_concurrent_benchmark_traced self prompts concurrency duration start
      traces = Some (Ok no_sample_result).
Proof.
  intros self prompts concurrency duration start traces H.
  unfold run_concurrent_benchmark_traced.
  rewrite gather_nothing; [reflexivity|].
  destruct H as [Hc | [Hd Hclock]].
  - replace (Z.to_nat concurrency) with 0%nat by lia. constructor.
  - apply Forall_forall. intros run Hin.
    apply in_map_iff in Hin as (i & <- & _).
    destruct (Hclock i) as (t & rest & -> & Ht).
    cbn [worker]. unfold before_deadline, py_lt.
    assert (Hle : (inject_Z duration <= clock t - start)%Q).
    { assert (inject_Z duration <= 0)%Q
        by (change 0%Q with (inject_Z 0); now rewrite <- Zle_Qle).
      lra. }
    apply Qle_bool_iff in Hle. now rewrite Hle.
Qed.

Lemma no_time_no_requests_witness :
  run_concurrent_benchmark_traced llama ["Hello"] 3 0 0 (fun _ => three_ticks)
  = Some (Ok no_sample_result)
  /\ run_concurrent_benchmark_traced llama ["Hello"] 0 10 0 (fun _ => [])
     = Some (Ok no_sample_result).
Proof.
  split.
  - apply (no_time_no_requests llama ["Hello"] 3 0 0 (fun _ => three_ticks)).
    right. split; [lia|]. intros _. do 2 eexists. split; [reflexivity|].
    discriminate.
  - apply (no_time_no_requests llama ["Hello"] 0 10 0 (fun _ => [])).
    left. lia.
Defined.

(* ================================================================== *)
(** * Properties of a whole run *)
(* ================================================================== *)

Lemma mapM_app {A B : Type} (f : A -> result B) (l1 l2 : list A) :
  mapM f (l1 ++ l2)%list =
  (a <- mapM f l1 ;; b <- mapM f l2 ;; Ok (a ++ b)%list).
Proof.
  induction l1 as [|x l1 IH]; cbn [mapM app bind].
  - destruct (mapM f l2); reflexivity.
  - destruct (f x); cbn [bind]; [|reflexivity].
    rewrite IH. destruct (mapM f l1); cbn [bind]; [|reflexivity].
    destruct (mapM f l2); reflexivity.
Qed.

Lemma gather_refines (self : RealBenchmarkEngine) (prompts : list string)
  (start : Q) (duration : Z) (traces : nat -> list tick) (ids : list nat) :
  forall res,
    gather (map (fun i => worker self prompts start duration 0 (traces i)) ids)
    = Some res ->
    res = mapM (worker_body self prompts)
            (flat_map (fun i => numbered 0 (passing start duration (traces i)))
                      ids).
Proof.
  induction ids as [|i ids IH]; intros res H.
  - now injection H as <-.
  - cbn [map gather flat_map] in *. rewrite mapM_app.
    destruct (worker self prompts start duration 0 (traces i)) as [run|] eqn:E;
      [|discriminate].
    rewrite <- (worker_refines self prompts start duration _ 0 run E).
    destruct run as [samples|e]; cbn [bind]; [|now injection H as <-].
    destruct (gather (map (fun i => worker self prompts start duration 0
                                      (traces i)) ids)) as [rest|];
      [|discriminate].
    rewrite <- (IH rest eq_refl).
    destruct rest; now injection H as <-.
Qed.

(** X17.  A run aggregates exactly the requests that passed the deadline
    test.  Whenever the traced run returns, its outcome is the one of
    [run_concurrent_benchmark] on the iterations that passed the test of
    their worker, each worker numbering its prompts from 0. *)
Theorem run_aggregates_passing_requests :
  forall (self : RealBenchmarkEngine) (prompts : list string)
         (concurrency duration : Z) (start : Q) (traces : nat -> list tick)
         (get : string -> result Z) (res : result RunResult),
    run_concurrent_benchmark_traced self prompts concurrency duration start
      traces = Some res ->
    res = snd (run_concurrent_benchmark self prompts concurrency duration
                 {| session_get := get;
                    iterations :=
                      flat_map
                        (fun i => numbered 0 (passing start duration (traces i)))
                        (seq 0 (Z.to_nat concurrency)) |}).
Proof.
  intros self prompts concurrency duration start traces get res H.
  unfold run_concurrent_benchmark_traced in H.
  unfold run_concurrent_benchmark. cbn [snd iterations].
  destruct (gather _) as [run|] eqn:E; [|discriminate].
  rewrite <- (gather_refines self prompts start duration traces _ run E).
  destruct run; now injection H as <-.
Qed.

Lemma run_aggregates_passing_requests_witness :
  exists res,
    run_concurrent_benchmark_traced llama ["Hello"] 2 10 0
      (fun _ => three_ticks) = Some res /\
    res = snd (run_concurrent_benchmark llama ["Hello"] 2 10
                 {| session_get := fun _ => Ok 200;
                    iterations :=
                      flat_map
                        (fun _ => numbered 0 (passing 0 10 three_ticks))
                        (seq 0 2) |}).
Proof.
  eexists. split; [reflexivity|].
  apply (run_aggregates_passing_requests llama ["Hello"] 2 10 0
           (fun _ => three_ticks) (fun _ => Ok 200)).
  reflexivity.
Defined.

(** Every sample of the prober is a failure sample or a completed one. *)
Lemma measure_cases (self : RealBenchmarkEngine) (prompt : string)
  (x : exchange) :
  (exists msg, measure_single_request self prompt x = Ok (failure x msg)) \/
  (exists t n, measure_single_request self prompt x = Ok (completed x t n)).
Proof.
  assert (Hfail : forall e, request_raises self prompt x e ->
            exists msg, measure_single_request self prompt x
                        = Ok (failure x msg)).
  { intros e He. eexists. apply measure_raises, He. }
  destruct (_build_request self prompt) as [[url payload]|e] eqn:Hb;
    [|left; apply (Hfail e); now left].
  destruct (post x url payload) as [r|e] eqn:Hp;
    [|left; apply (Hfail e); right; exists url, payload;
      split; [exact Hb | now left]].
  destruct (Z.eq_dec (status r) 200) as [Hs|Hs].
  - destruct (read_response self (start_time x) r (None, 0))
      as [[seen n]|e] eqn:Hr.
    + right. do 2 eexists. eapply measure_success; eassumption.
    + left. apply (Hfail e). right. exists url, payload. split; [exact Hb|].
      right. now exists r.
  - left. eexists. eapply measure_http_error; eassumption.
Qed.

Lemma reported_positive (n : Z) : 1 <= reported n.
Proof. unfold reported. destruct (Z.gtb_spec n 0); lia. Qed.

(** The samples that the workers collect. *)
Lemma workers_samples (self : RealBenchmarkEngine) (prompts : list string)
  (its : list attempt) :
  prompts <> [] ->
  exists samples, mapM (worker_body self prompts) its = Ok samples /\
    forallb timed samples = true /\
    len samples = len its /\
    Forall (fun s => success s = true -> 1 <= tokens s) samples /\
    (known self = false -> Forall (fun s => success s = false) samples).
Proof.
  intros Hp. induction its as [|a its (samples & IH & Ht & Hl & Htok & Hunk)].
  - exists []. repeat split; constructor.
  - destruct (worker_body_returns self prompts a Hp) as (s & Hs & Hts & Hm).
    exists (s :: samples). cbn [mapM]. rewrite Hs. cbn [bind]. rewrite IH.
    cbn [bind forallb]. rewrite Hts, Ht, !len_cons, Hl.
    repeat split.
    + constructor; [|exact Htok].
      destruct (measure_cases self
                  (nth (Z.to_nat (prompt_idx a mod len prompts)) prompts "")
                  (wire a)) as [(msg & E) | (t & n & E)];
        rewrite E in Hm; injection Hm as <-; cbn; intros Hsucc;
        [discriminate Hsucc | apply reported_positive].
    + intros Hk. constructor; [|now apply Hunk].
      rewrite (unknown_engine_failure self _ (wire a) Hk) in Hm.
      now injection Hm as <-.
Qed.

Lemma successful_tokens_lower_bound (samples : list Sample) :
  Forall (fun s => success s = true -> 1 <= tokens s) samples ->
  len (filter (fun r => success r) samples) <= successful_tokens samples.
Proof.
  unfold successful_tokens.
  induction 1 as [|s samples Hs _ IH]; cbn [filter fold_right]; [reflexivity|].
  destruct (success s); [|exact IH].
  rewrite len_cons. specialize (Hs eq_refl). lia.
Qed.

(** What [run_real_benchmark] does once the health check has passed. *)
Lemma run_healthy (kind base model : string) (prompts : list string)
  (concurrency duration : Z) (w : world) :
  session_get w (health_url kind base) = Ok 200 ->
  run_real_benchmark kind base model prompts concurrency duration w =
    ([SessionGet (health_url kind base); Gather concurrency],
     r <- (results <- mapM (worker_body (mkEngine kind base model) prompts)
                        (iterations w) ;;
           _aggregate_results results duration) ;;
     Ok (Some r)).
Proof.
  intros Hup.
  unfold run_real_benchmark, health_check, run_concurrent_benchmark.
  cbn [engine base_url]. fold (health_url kind base). now rewrite Hup.
Qed.

(** X18.  A healthy run accounts for every request.  When the health check
    passes and the prompt list is not empty, the run returns a run result in
    which the successful and failed counts add up to the number of requests
    the workers sent, and the token total is at least the number of
    successes (every success reports at least one token). *)
Theorem healthy_run_accounts_for_requests :
  forall (kind base model : string) (prompts : list string)
         (concurrency duration : Z) (w : world),
    session_get w (health_url kind base) = Ok 200 -> prompts <> [] ->
    exists r,
      snd (run_real_benchmark kind base model prompts concurrency duration w)
      = Ok (Some r) /\
      successful_requests r + failed_requests r = len (iterations w) /\
      successful_requests r <= total_tokens r.
Proof.
  intros kind base model prompts concurrency duration w Hup Hp.
  rewrite (run_healthy kind base model prompts concurrency duration w Hup).
  destruct (workers_samples (mkEngine kind base model) prompts (iterations w) Hp)
    as (samples & Hm & Ht & Hl & Htok & _).
  rewrite Hm. cbn [snd bind].
  pose proof (successful_tokens_lower_bound samples Htok) as Hlow.
  pose proof (len_filter_split (fun r => success r) samples) as Hsplit.
  cbv beta in Hsplit.
  destruct (filter (fun r => success r) samples) as [|s0 ss] eqn:E.
  - rewrite (aggregate_no_success samples duration E). cbn [bind].
    eexists. split; [reflexivity|]. cbn. lia.
  - destruct (aggregate_some_success samples duration Ht)
      as (x50 & x95 & x99 & _ & _ & _ & _ & Hagg).
    { rewrite E. discriminate. }
    rewrite Hagg. cbn [bind]. eexists. split; [reflexivity|].
    cbn [successful_requests failed_requests total_tokens].
    rewrite E in *. lia.
Qed.

Lemma healthy_run_accounts_for_requests_witness :
  exists r,
    snd (run_real_benchmark "llama.cpp" "http://localhost:8080" "llama-3.1-8b"
           ["Hello"] 2 10
           (up [mkAttempt 0 (answered late_content);
                mkAttempt 1 (refused TimeoutError)])) = Ok (Some r) /\
    successful_requests r + failed_requests r = 2 /\
    successful_requests r <= total_tokens r.
Proof.
  apply (healthy_run_accounts_for_requests "llama.cpp" "http://localhost:8080"
           "llama-3.1-8b" ["Hello"] 2 10
           (up [mkAttempt 0 (answered late_content);
                mkAttempt 1 (refused TimeoutError)]));
    [reflexivity | discriminate].
Defined.

Lemma unknown_kind_health_url (kind base : string) :
  known (mkEngine kind base "") = false ->
  health_url kind base = base ++ "/health".
Proof.
  unfold known, health_url, dict_get, health_endpoints. cbn [engine lookup].
  intros H. apply orb_false_iff in H as [H E3]. apply orb_false_iff in H as [E1 E2].
  rewrite String.eqb_sym in E1. rewrite String.eqb_sym in E2.
  rewrite String.eqb_sym in E3. now rewrite E1, E2, E3.
Qed.

(** X19.  An engine kind that the prober does not know still passes the
    health gate, on the default [/health] endpoint; the run then reports
    every request as failed: no success, no token, [error_rate = 1]. *)
Theorem unknown_engine_run_all_failed :
  forall (kind base model : string) (prompts : list string)
         (concurrency duration : Z) (w : world),
    known (mkEngine kind base model) = false ->
    session_get w (base ++ "/health") = Ok 200 -> prompts <> [] ->
    run_real_benchmark kind base model prompts concurrency duration w =
      ([SessionGet (base ++ "/health"); Gather concurrency],
       Ok (Some {| successful_requests := 0;
                   failed_requests := len (iterations w);
                   ttft_p50 := 0; ttft_p95 := 0; ttft_p99 := 0;
                   tokens_per_sec := 0; total_tokens := 0;
                   error_rate := 1 |})).
Proof.
  intros kind base model prompts concurrency duration w Hk Hup Hp.
  assert (Hurl : health_url kind base = base ++ "/health")
    by (apply unknown_kind_health_url; exact Hk).
  rewrite <- Hurl in *.
  rewrite (run_healthy kind base model prompts concurrency duration w Hup).
  destruct (workers_samples (mkEngine kind base model) prompts (iterations w) Hp)
    as (samples & Hm & _ & Hl & _ & Hfail).
  rewrite Hm. cbn [bind].
  assert (E : filter (fun r => success r) samples = []).
  { specialize (Hfail Hk). clear Hm Hl.
    induction Hfail as [|s samples Hs _ IH]; [reflexivity|].
    cbn [filter]. now rewrite Hs. }
  rewrite (aggregate_no_success samples duration E). cbn [bind].
  now rewrite Hl.
Qed.

Lemma unknown_engine_run_all_failed_witness :
  run_real_benchmark "tgi" "http://localhost:3000" "m" ["Hello"] 1 10
    (up [mkAttempt 0 (answered late_content)])
  = ([SessionGet "http://localhost:3000/health"; Gather 1],
     Ok (Some {| successful_requests := 0; failed_requests := 1;
                 ttft_p50 := 0; ttft_p95 := 0; ttft_p99 := 0;
                 tokens_per_sec := 0; total_tokens := 0;
                 error_rate := 1 |})).
Proof.
  apply (unknown_engine_run_all_failed "tgi" "http://localhost:3000" "m"
           ["Hello"] 1 10 (up [mkAttempt 0 (answered late_content)]));
    [reflexivity | reflexivity | discriminate].
Defined.



